(** * MonMon dashboard: the energy-data pipeline of [server.js]

    A shallow embedding of the data-acquisition and derivation code of the
    dashboard server, and the properties of its specification.

    Two revisions of the server are embedded:
    - [server_js]: [src/server.js], lines 104-256 (four symbols, the 3-2-1
      crack, the five-minute cache);
    - [part_000]: [src/unnamed/part_000] (three symbols, the derived-product
      estimators, the generic crack, the same cache).
    The request handler, [fetchYahooPrice] and [calculateCrack321] are the
    same text wherever they occur and are embedded once.

    Numbers.  A JavaScript number is modelled by [JS.number]: a finite value
    is an exact rational ([Qc]), next to [NaN] and the two infinities.  The
    rounding of binary64 arithmetic is abstracted: sums, products and
    quotients of finite values are exact, and the two zeros are identified
    (a division of a non-zero finite value by zero yields the infinity with
    the sign of the dividend).  What the code does with an absent value
    ([undefined], [null]), with zero, with [NaN] and with a division by zero
    is kept as JavaScript defines it.

    Where a property depends on the rounding itself, module [Binary64] holds
    the calculators and estimators once more, over IEEE 754 doubles, the
    numbers the server computes with. *)

From Stdlib Require Import ZArith QArith Qcanon Floats.
From stdpp Require Import base decidable option list gmap strings.

Set Warnings "-inexact-float".

(** ** JavaScript values *)

Module JS.
Local Open Scope Qc_scope.

Inductive number : Type :=
  | Finite (q : Qc)
  | NaN
  | Inf (negative : bool).

Inductive value : Type :=
  | Undefined
  | Null
  | Num (n : number).

(** A finite number, and a decimal literal of the source such as [66.50]. *)
Definition num (q : Qc) : value := Num (Finite q).
Definition lit (q : Q) : value := num (Q2Qc q).

Definition ToNumber (v : value) : number :=
  match v with
  | Undefined => NaN
  | Null => Finite 0
  | Num n => n
  end.

(** Truthiness: [undefined], [null], [0] and [NaN] are falsy. *)
Definition ToBoolean (v : value) : bool :=
  match v with
  | Undefined | Null => false
  | Num (Finite q) => negb (bool_decide (q = 0))
  | Num NaN => false
  | Num (Inf _) => true
  end.

Definition is_negative (q : Qc) : bool := bool_decide (q < 0).

Definition nneg (a : number) : number :=
  match a with
  | Finite q => Finite (- q)
  | NaN => NaN
  | Inf s => Inf (negb s)
  end.

Definition nadd (a b : number) : number :=
  match a, b with
  | Finite x, Finite y => Finite (x + y)
  | NaN, _ | _, NaN => NaN
  | Inf s, Inf t => if Bool.eqb s t then Inf s else NaN
  | Inf s, Finite _ => Inf s
  | Finite _, Inf t => Inf t
  end.

Definition nsub (a b : number) : number := nadd a (nneg b).

Definition nmul (a b : number) : number :=
  match a, b with
  | Finite x, Finite y => Finite (x * y)
  | NaN, _ | _, NaN => NaN
  | Inf s, Inf t => Inf (xorb s t)
  | Inf s, Finite y => if bool_decide (y = 0) then NaN else Inf (xorb s (is_negative y))
  | Finite x, Inf t => if bool_decide (x = 0) then NaN else Inf (xorb (is_negative x) t)
  end.

Definition ndiv (a b : number) : number :=
  match a, b with
  | Finite x, Finite y =>
      if bool_decide (y = 0)
      then (if bool_decide (x = 0) then NaN else Inf (is_negative x))
      else Finite (x / y)
  | NaN, _ | _, NaN => NaN
  | Inf _, Inf _ => NaN
  | Inf s, Finite y => Inf (xorb s (is_negative y))
  | Finite _, Inf _ => Finite 0
  end.

Definition nlt (a b : number) : bool :=
  match a, b with
  | Finite x, Finite y => bool_decide (x < y)
  | NaN, _ | _, NaN => false
  | Inf s, Inf t => s && negb t
  | Inf s, Finite _ => s
  | Finite _, Inf t => negb t
  end.

(** The operators of the source on values: operands go through [ToNumber]. *)
Definition vadd (a b : value) : value := Num (nadd (ToNumber a) (ToNumber b)).
Definition vsub (a b : value) : value := Num (nsub (ToNumber a) (ToNumber b)).
Definition vmul (a b : value) : value := Num (nmul (ToNumber a) (ToNumber b)).
Definition vdiv (a b : value) : value := Num (ndiv (ToNumber a) (ToNumber b)).
Definition vlt (a b : value) : bool := nlt (ToNumber a) (ToNumber b).

(** [!a], [a || b] and [a === 0]. *)
Definition falsy (a : value) : bool := negb (ToBoolean a).
Definition or_else (a b : value) : value := if ToBoolean a then a else b.
Definition strict_eq_zero (a : value) : bool :=
  match a with
  | Num (Finite q) => bool_decide (q = 0)
  | _ => false
  end.

(** [a[i]]: out of range (and so at a negative index) it is [undefined]. *)
Definition index (a : list value) (i : Z) : value :=
  if (i <? 0)%Z then Undefined else nth (Z.to_nat i) a Undefined.

End JS.

Import JS.

(** ** Quotes *)

Record Quote : Type := mkQuote {
  price : value;
  change : value;
  changePercent : value;
  previousClose : value
}.

(** [q?.price] *)
Definition opt_price (q : option Quote) : value :=
  match q with
  | Some q => price q
  | None => Undefined
  end.

(** ** Crack spreads *)

(** [part_000], lines 203-207: the product price as dollars per barrel. *)
Definition productBarrel (productPrice : value) : value :=
  if vlt productPrice (lit 10) then vmul productPrice (lit 42) else productPrice.

(** [part_000], lines 200-211. *)
Definition calculateCrack (crudePrice productPrice : value) : value :=
  if falsy crudePrice || falsy productPrice then lit 0
  else vsub (productBarrel productPrice) crudePrice.

(** [server.js], lines 242-252. *)
Definition calculateCrack321 (wti rbob ho : value) : value :=
  if falsy wti || falsy rbob || falsy ho then lit 0
  else
    let rbobBarrel := vmul rbob (lit 42) in
    let hoBarrel := vmul ho (lit 42) in
    vsub (vdiv (vadd (vmul (lit 2) rbobBarrel) hoBarrel) (lit 3)) wti.

(** The rule of the specification for the 3-2-1 crack: each product goes
    through the normalization of [calculateCrack] (times 42 below 10, as it
    is from 10 on). *)
Definition crack321_shared_rule (wti rbob ho : value) : value :=
  vsub (vdiv (vadd (vmul (lit 2) (productBarrel rbob)) (productBarrel ho))
          (lit 3)) wti.

(** ** Derived-product estimators ([part_000], lines 141-187) *)

Definition estimateFuelOil05 (brentPrice : value) : Quote :=
  let brentPrice := if falsy brentPrice then lit 71.80 else brentPrice in
  let premium := lit 4.0 in
  let price := vadd brentPrice premium in
  {| price := price;
     change := lit 0.50;
     changePercent := lit 0.67;
     previousClose := vsub price (lit 0.50) |}.

Definition estimateFuelOil380 (brentPrice : value) : Quote :=
  let brentPrice := if falsy brentPrice then lit 71.80 else brentPrice in
  let discount := lit 10.0 in
  let price := vsub brentPrice discount in
  {| price := price;
     change := lit (-0.30);
     changePercent := lit (-0.48);
     previousClose := vadd price (lit 0.30) |}.

Definition estimateGas92 (rbobPrice : value) : Quote :=
  let rbobPrice := if falsy rbobPrice then lit 2.28 else rbobPrice in
  let adjustment := lit (-0.02) in
  let price := vadd rbobPrice adjustment in
  {| price := price;
     change := lit 0.03;
     changePercent := lit 1.35;
     previousClose := vsub price (lit 0.03) |}.

(** ** The quote fetcher *)

(** What a function call yields: a value, or an exception. *)
Inductive outcome (A : Type) : Type :=
  | Returned (a : A)
  | Thrown (message : string).
Arguments Returned {A} a.
Arguments Thrown {A} message.

Module Yahoo.

(** [result.meta] *)
Record Meta : Type := {
  regularMarketPrice : value;
  previousClose : value
}.

(** [response.data.chart.result[0]]: [close] is
    [result.indicators?.quote?.[0]?.close], absent when a link of the chain
    is. *)
Record ChartResult : Type := {
  meta : option Meta;
  close : option (list value)
}.

(** What [axios.get] does: it rejects (network error, timeout, HTTP error),
    or resolves with a body whose [data?.chart?.result?.[0]] is present or
    not. *)
Inductive Response : Type :=
  | Rejects (message : string)
  | Resolves (result0 : option ChartResult).

End Yahoo.

(** The upstream service: the response to the chart request of a ticker. *)
Definition Upstream : Type := string -> Yahoo.Response.

Local Open Scope string_scope.

(** [server.js], lines 191-228; [part_000], lines 103-139. *)
Definition fetchYahooPrice (net : Upstream) (symbol : string) : outcome Quote :=
  match net symbol with
  | Yahoo.Rejects message => Thrown message
  | Yahoo.Resolves None => Thrown "Invalid response structure"
  | Yahoo.Resolves (Some result) =>
      match Yahoo.meta result with
      | None => Thrown "Cannot read properties of undefined"
      | Some quote =>
          let closes := default [] (Yahoo.close result) in
          let length := Z.of_nat (length closes) in
          let latestPrice := Yahoo.regularMarketPrice quote in
          let latestPrice :=
            if falsy latestPrice || strict_eq_zero latestPrice
            then index closes (length - 1)
            else latestPrice in
          let previousClose :=
            or_else (Yahoo.previousClose quote) (index closes (length - 2)) in
          let change := vsub latestPrice previousClose in
          let changePercent := vmul (vdiv change previousClose) (lit 100) in
          Returned {| price := latestPrice;
                      change := change;
                      changePercent := changePercent;
                      previousClose := previousClose |}
      end
  end.

(** The loop over [Object.entries(symbols)] of [fetchEnergyData], with the
    fallback of the revision at hand. *)
Definition fetchQuotes (getMockData : string -> Quote)
    (symbols : list (string * string)) (net : Upstream) : gmap string Quote :=
  fold_left
    (fun data '(key, symbol) =>
       match fetchYahooPrice net symbol with
       | Returned price => <[key := price]> data
       | Thrown _ => <[key := getMockData key]> data
       end)
    symbols ∅.

(** [(data.brent?.price || 0) - (data.wti?.price || 0)], the same in both
    revisions. *)
Definition brent_wti_spread (data : gmap string Quote) : value :=
  vsub (or_else (opt_price (data !! "brent")) (lit 0))
       (or_else (opt_price (data !! "wti")) (lit 0)).

(** [data.k?.price ? (data.k.price * factor) : fallback] *)
Definition calendar_estimate (data : gmap string Quote) (key : string)
    (factor fallback : Q) : value :=
  if ToBoolean (opt_price (data !! key))
  then vmul (opt_price (data !! key)) (lit factor)
  else lit fallback.

(** ** [src/server.js], lines 104-256 *)

Module server_js.

Definition symbols : list (string * string) :=
  [("wti", "CL=F"); ("brent", "BZ=F"); ("rbob", "RB=F"); ("ho", "HO=F")].

Definition mockPrices : gmap string Quote :=
  list_to_map
    [("wti", mkQuote (lit 66.50) (lit 0.80) (lit 1.22) (lit 65.70));
     ("brent", mkQuote (lit 71.80) (lit 0.90) (lit 1.27) (lit 70.90));
     ("rbob", mkQuote (lit 2.28) (lit 0.04) (lit 1.79) (lit 2.24));
     ("ho", mkQuote (lit 2.55) (lit (-0.03)) (lit (-1.16)) (lit 2.58))].

(** [mockPrices[commodity] || {...}], for a [commodity] that is not a
    property name inherited from [Object.prototype] (the loop passes the
    registry keys only). *)
Definition getMockData (commodity : string) : Quote :=
  default (mkQuote (lit 0) (lit 0) (lit 0) (lit 0)) (mockPrices !! commodity).

Record Spreads : Type := {
  brent_wti : value;
  crack_321 : value;
  wti_m1m2 : value;
  wti_m1m6 : value;
  rbob_m1m2 : value;
  ho_m1m2 : value
}.

(** The object literal [spreads], lines 171-179. *)
Definition spreads (data : gmap string Quote) : Spreads :=
  {| brent_wti := brent_wti_spread data;
     crack_321 := calculateCrack321 (opt_price (data !! "wti"))
                    (opt_price (data !! "rbob")) (opt_price (data !! "ho"));
     wti_m1m2 := calendar_estimate data "wti" 0.008 0.50;
     wti_m1m6 := calendar_estimate data "wti" 0.035 2.30;
     rbob_m1m2 := calendar_estimate data "rbob" 0.01 0.15;
     ho_m1m2 := calendar_estimate data "ho" 0.008 0.20 |}.

Record Snapshot : Type := {
  timestamp : string;
  wti : option Quote;
  brent : option Quote;
  rbob : option Quote;
  heatingOil : option Quote;
  snapshot_spreads : Spreads
}.

(** [now] stands for [new Date().toISOString()]. *)
Definition fetchEnergyData (net : Upstream) (now : string) : Snapshot :=
  let data := fetchQuotes getMockData symbols net in
  {| timestamp := now;
     wti := data !! "wti";
     brent := data !! "brent";
     rbob := data !! "rbob";
     heatingOil := data !! "ho";
     snapshot_spreads := spreads data |}.

End server_js.

(** ** [src/unnamed/part_000] *)

Module part_000.

Definition symbols : list (string * string) :=
  [("wti", "CL=F"); ("brent", "BZ=F"); ("rbob", "RB=F")].

Definition mockPrices : gmap string Quote :=
  list_to_map
    [("wti", mkQuote (lit 66.50) (lit 0.80) (lit 1.22) (lit 65.70));
     ("brent", mkQuote (lit 71.80) (lit 0.90) (lit 1.27) (lit 70.90));
     ("rbob", mkQuote (lit 2.28) (lit 0.04) (lit 1.79) (lit 2.24))].

(** [mockPrices[commodity] || {...}], for a [commodity] that is not a
    property name inherited from [Object.prototype] (the loop passes the
    registry keys only). *)
Definition getMockData (commodity : string) : Quote :=
  default (mkQuote (lit 0) (lit 0) (lit 0) (lit 0)) (mockPrices !! commodity).

(** Lines 66-72: the estimated products join the fetched quotes. *)
Definition withEstimates (data : gmap string Quote) : gmap string Quote :=
  let data := <["fo05" := estimateFuelOil05 (opt_price (data !! "brent"))]> data in
  let data := <["fo380" := estimateFuelOil380 (opt_price (data !! "brent"))]> data in
  <["gas92" := estimateGas92 (opt_price (data !! "rbob"))]> data.

Record Spreads : Type := {
  brent_wti : value;
  wti_m1m2 : value;
  wti_m1m6 : value;
  rbob_m1m2 : value;
  crack_92 : value;
  crack_fo05 : value;
  crack_fo380 : value
}.

(** The object literals [cracks] and [spreads], lines 75-89. *)
Definition spreads (data : gmap string Quote) : Spreads :=
  {| brent_wti := brent_wti_spread data;
     wti_m1m2 := calendar_estimate data "wti" 0.008 0.50;
     wti_m1m6 := calendar_estimate data "wti" 0.035 2.30;
     rbob_m1m2 := calendar_estimate data "rbob" 0.01 0.15;
     crack_92 := calculateCrack (opt_price (data !! "brent"))
                   (opt_price (data !! "gas92"));
     crack_fo05 := calculateCrack (opt_price (data !! "brent"))
                     (opt_price (data !! "fo05"));
     crack_fo380 := calculateCrack (opt_price (data !! "brent"))
                      (opt_price (data !! "fo380")) |}.

Record Snapshot : Type := {
  timestamp : string;
  wti : option Quote;
  brent : option Quote;
  rbob : option Quote;
  gas92 : option Quote;
  fo05 : option Quote;
  fo380 : option Quote;
  snapshot_spreads : Spreads
}.

(** [now] stands for [new Date().toISOString()]. *)
Definition fetchEnergyData (net : Upstream) (now : string) : Snapshot :=
  let data := withEstimates (fetchQuotes getMockData symbols net) in
  {| timestamp := now;
     wti := data !! "wti";
     brent := data !! "brent";
     rbob := data !! "rbob";
     gas92 := data !! "gas92";
     fo05 := data !! "fo05";
     fo380 := data !! "fo380";
     snapshot_spreads := spreads data |}.

End part_000.

(** ** The cached endpoint ([server.js], lines 114-146; [part_000], lines
    11-43)

    The handler only stores and returns the snapshot, so it is embedded for
    any type of snapshots.  [Date.now()] is the argument [now]; the await of
    [fetchEnergyData()] is the argument [refresh], what that call yields if
    the handler makes it. *)

Section Endpoint.

Context {Snapshot : Type}.

(** The module variables [cachedData] and [lastFetch]. *)
Record Cache : Type := {
  cachedData : option Snapshot;
  lastFetch : Z
}.

Definition initial : Cache := {| cachedData := None; lastFetch := 0 |}.

Definition CACHE_DURATION : Z := 5 * 60 * 1000.

Inductive Response : Type :=
  | Json200 (body : Snapshot)
  | Json500 (error : string).

(** What serving one request did: the response, the number of calls of
    [fetchEnergyData] it made, and the snapshot it stored, if any. *)
Record Served : Type := {
  response : Response;
  fetches : nat;
  produced : option Snapshot
}.

Definition handler (now : Z) (refresh : outcome Snapshot) (c : Cache)
    : Served * Cache :=
  match cachedData c, (now - lastFetch c <? CACHE_DURATION)%Z with
  | Some data, true =>
      ({| response := Json200 data; fetches := 0; produced := None |}, c)
  | _, _ =>
      match refresh with
      | Returned data =>
          ({| response := Json200 data; fetches := 1; produced := Some data |},
           {| cachedData := Some data; lastFetch := now |})
      | Thrown _ =>
          match cachedData c with
          | Some data =>
              ({| response := Json200 data; fetches := 1; produced := None |}, c)
          | None =>
              ({| response := Json500 "Failed to fetch energy data";
                  fetches := 1; produced := None |}, c)
          end
      end
  end.

(** The server over a sequence of requests, each with its arrival time and
    the outcome the upstream refresh has at that time. *)
Fixpoint serve (requests : list (Z * outcome Snapshot)) (c : Cache)
    : list Served * Cache :=
  match requests with
  | [] => ([], c)
  | (now, refresh) :: rest =>
      let '(s, c) := handler now refresh c in
      let '(ss, c) := serve rest c in
      (s :: ss, c)
  end.

(** The last snapshot a history of served requests produced. *)
Fixpoint last_produced (history : list Served) : option Snapshot :=
  match history with
  | [] => None
  | s :: rest =>
      match last_produced rest with
      | Some d => Some d
      | None => produced s
      end
  end.

End Endpoint.

Arguments Cache : clear implicits.
Arguments Response : clear implicits.
Arguments Served : clear implicits.

(** ** The calculators and estimators in binary64

    The same functions over the doubles of the running program: every
    operation rounds to nearest, and a decimal literal is the double nearest
    to it. *)

Module Binary64.
Local Open Scope float_scope.

Inductive value : Type :=
  | Undefined
  | Null
  | Num (x : float).

Definition ToNumber (v : value) : float :=
  match v with
  | Undefined => nan
  | Null => 0
  | Num x => x
  end.

Definition ToBoolean (v : value) : bool :=
  match v with
  | Undefined | Null => false
  | Num x => negb (PrimFloat.eqb x 0 || PrimFloat.is_nan x)
  end.

Definition falsy (v : value) : bool := negb (ToBoolean v).

Record Quote : Type := mkQuote {
  price : float;
  change : float;
  changePercent : float;
  previousClose : float
}.

Definition productBarrel (productPrice : value) : float :=
  if PrimFloat.ltb (ToNumber productPrice) 10
  then ToNumber productPrice * 42
  else ToNumber productPrice.

Definition calculateCrack (crudePrice productPrice : value) : float :=
  if falsy crudePrice || falsy productPrice then 0
  else productBarrel productPrice - ToNumber crudePrice.

Definition calculateCrack321 (wti rbob ho : value) : float :=
  if falsy wti || falsy rbob || falsy ho then 0
  else
    let rbobBarrel := ToNumber rbob * 42 in
    let hoBarrel := ToNumber ho * 42 in
    ((2 * rbobBarrel + hoBarrel) / 3) - ToNumber wti.

Definition estimateFuelOil05 (brentPrice : value) : Quote :=
  let brentPrice := if falsy brentPrice then 71.80 else ToNumber brentPrice in
  let premium := 4.0 in
  let price := brentPrice + premium in
  {| price := price;
     change := 0.50;
     changePercent := 0.67;
     previousClose := price - 0.50 |}.

Definition estimateFuelOil380 (brentPrice : value) : Quote :=
  let brentPrice := if falsy brentPrice then 71.80 else ToNumber brentPrice in
  let discount := 10.0 in
  let price := brentPrice - discount in
  {| price := price;
     change := -0.30;
     changePercent := -0.48;
     previousClose := price + 0.30 |}.

Definition estimateGas92 (rbobPrice : value) : Quote :=
  let rbobPrice := if falsy rbobPrice then 2.28 else ToNumber rbobPrice in
  let adjustment := -0.02 in
  let price := rbobPrice + adjustment in
  {| price := price;
     change := 0.03;
     changePercent := 1.35;
     previousClose := price - 0.03 |}.

(** [a || b], [a === 0] and [a[i]] on these values. *)
Definition or_else (a b : value) : value := if ToBoolean a then a else b.

Definition strict_eq_zero (a : value) : bool :=
  match a with
  | Num x => PrimFloat.eqb x 0
  | _ => false
  end.

Definition index (a : list value) (i : Z) : value :=
  if (i <? 0)%Z then Undefined else nth (Z.to_nat i) a Undefined.

(** [(data.brent?.price || 0) - (data.wti?.price || 0)], as a function of
    the two optional prices [data.brent?.price] and [data.wti?.price]. *)
Definition brent_wti_spread (brent wti : value) : float :=
  ToNumber (or_else brent (Num 0)) - ToNumber (or_else wti (Num 0)).

(** [data.k?.price ? (data.k.price * factor) : fallback], as a function of
    the optional price. *)
Definition calendar_estimate (price : value) (factor fallback : float)
    : float :=
  if ToBoolean price then ToNumber price * factor else fallback.

(** [part_000], lines 66-79: the cracks on the estimates, as functions of
    the optional Brent and RBOB prices. *)
Definition crack_92 (brent rbob : value) : float :=
  calculateCrack brent (Num (price (estimateGas92 rbob))).

Definition crack_fo05 (brent : value) : float :=
  calculateCrack brent (Num (price (estimateFuelOil05 brent))).

Definition crack_fo380 (brent : value) : float :=
  calculateCrack brent (Num (price (estimateFuelOil380 brent))).

(** [(price - previousClose) / previousClose * 100] of a quote. *)
Definition percent_of_close (q : Quote) : float :=
  (price q - previousClose q) / previousClose q * 100.

(** The quote fetcher on doubles.  The price and the previous close of a
    fetched quote are values (they can be [undefined] or [null]); its change
    and percentage are the numbers the arithmetic gives. *)
Module Yahoo.

Record Meta : Type := {
  regularMarketPrice : value;
  previousClose : value
}.

Record ChartResult : Type := {
  meta : option Meta;
  close : option (list value)
}.

Inductive Response : Type :=
  | Rejects (message : string)
  | Resolves (result0 : option ChartResult).

End Yahoo.

Record Fetched : Type := mkFetched {
  fetched_price : value;
  fetched_change : float;
  fetched_changePercent : float;
  fetched_previousClose : value
}.

Definition fetchYahooPrice (net : string -> Yahoo.Response) (symbol : string)
    : outcome Fetched :=
  match net symbol with
  | Yahoo.Rejects message => Thrown message
  | Yahoo.Resolves None => Thrown "Invalid response structure"
  | Yahoo.Resolves (Some result) =>
      match Yahoo.meta result with
      | None => Thrown "Cannot read properties of undefined"
      | Some quote =>
          let closes := default [] (Yahoo.close result) in
          let length := Z.of_nat (length closes) in
          let latestPrice := Yahoo.regularMarketPrice quote in
          let latestPrice :=
            if falsy latestPrice || strict_eq_zero latestPrice
            then index closes (length - 1)
            else latestPrice in
          let previousClose :=
            or_else (Yahoo.previousClose quote) (index closes (length - 2)) in
          let change := ToNumber latestPrice - ToNumber previousClose in
          let changePercent := (change / ToNumber previousClose) * 100 in
          Returned {| fetched_price := latestPrice;
                      fetched_change := change;
                      fetched_changePercent := changePercent;
                      fetched_previousClose := previousClose |}
      end
  end.

(** An upstream that answers every ticker with the same chart. *)
Definition constant_upstream (regular previous : value) (closes : list value)
    : string -> Yahoo.Response :=
  fun _ =>
    Yahoo.Resolves (Some
      {| Yahoo.meta := Some {| Yahoo.regularMarketPrice := regular;
                               Yahoo.previousClose := previous |};
         Yahoo.close := Some closes |}).

(** Two doubles less than [1e-12] apart. *)
Definition close (x y : float) : bool := PrimFloat.ltb (abs (x - y)) 1e-12.

End Binary64.

(** ** Notions of the specification *)

(** [(price - previousClose) / previousClose * 100] of a quote. *)
Definition percent_of_close (q : Quote) : value :=
  vmul (vdiv (vsub (price q) (previousClose q)) (previousClose q)) (lit 100).

(** Two finite numbers no further apart than [tol]. *)
Definition within (tol : Q) (a b : value) : bool :=
  match a, b with
  | Num (Finite x), Num (Finite y) =>
      bool_decide ((x - y <= Q2Qc tol)%Qc) && bool_decide ((y - x <= Q2Qc tol)%Qc)
  | _, _ => false
  end.

(** An infinite number. *)
Definition infinite (v : value) : bool :=
  match v with
  | Num (Inf _) => true
  | _ => false
  end.

(** An upstream that answers every ticker with the same chart. *)
Definition constant_upstream (regular previous : value) (closes : list value)
    : Upstream :=
  fun _ =>
    Yahoo.Resolves (Some
      {| Yahoo.meta := Some {| Yahoo.regularMarketPrice := regular;
                               Yahoo.previousClose := previous |};
         Yahoo.close := Some closes |}).

(** ** The pipeline as a whole *)

(** What the loop of [fetchEnergyData] stores under a key: the fetched
    quote, or the fallback of the key when the fetch throws. *)
Definition fetched_or_fallback (getMockData : string -> Quote)
    (net : Upstream) (key symbol : string) : Quote :=
  match fetchYahooPrice net symbol with
  | Returned price => price
  | Thrown _ => getMockData key
  end.

(** The body of the loop of [fetchEnergyData], as [fetchQuotes] folds it. *)
Definition fetch_step (getMockData : string -> Quote) (net : Upstream)
    (data : gmap string Quote) (entry : string * string)
    : gmap string Quote :=
  let '(key, symbol) := entry in
  match fetchYahooPrice net symbol with
  | Returned price => <[key := price]> data
  | Thrown _ => <[key := getMockData key]> data
  end.

(** A finite number. *)
Definition is_finite (v : value) : bool :=
  match v with
  | Num (Finite _) => true
  | _ => false
  end.

(** The total of the calls of [fetchEnergyData] over served requests. *)
Definition total_fetches {Snapshot : Type} (history : list (Served Snapshot))
    : nat :=
  foldr (fun s n => (fetches s + n)%nat) 0%nat history.

(** An upstream on which the Brent chart has a [meta] but no price at all,
    and every other request is rejected. *)
Definition brent_without_price : Upstream :=
  fun symbol =>
    if bool_decide (symbol = "BZ=F")
    then constant_upstream Undefined Undefined [] symbol
    else Yahoo.Rejects "timeout".

(** The property names every plain object inherits from [Object.prototype]:
    looked up in [mockPrices] they yield the inherited member, not
    [undefined], so [getMockData] is embedded for the other names only. *)
Definition object_prototype_keys : list string :=
  ["constructor"; "__defineGetter__"; "__defineSetter__"; "hasOwnProperty";
   "__lookupGetter__"; "__lookupSetter__"; "isPrototypeOf";
   "propertyIsEnumerable"; "toString"; "valueOf"; "__proto__";
   "toLocaleString"].

(** * Properties *)

Local Open Scope Qc_scope.

(** ** Evaluation of closed numeric terms *)

Lemma num_eq (a b : Qc) : (a == b)%Q -> num a = num b.
Proof. intros E. f_equal. apply Qc_is_canon, E. Qed.

Lemma num_neq (a b : Qc) : Qeq_bool a b = false -> num a <> num b.
Proof.
  intros E H. apply Qeq_bool_neq in E. apply E.
  injection H as ->. reflexivity.
Qed.

Lemma num_inj (a b : Qc) : num a = num b -> a = b.
Proof. intros H. now injection H. Qed.

(** Closes [x = lit q] and [x <> lit q] for a closed term [x]. *)
Ltac js_eval :=
  lazymatch goal with
  | |- _ <> _ => apply num_neq; vm_compute; reflexivity
  | |- _ = _ => apply num_eq; vm_compute; reflexivity
  end.

Lemma nonzero_truthy (q : Qc) : q <> 0 -> falsy (num q) = false.
Proof.
  intros H. unfold falsy, num, ToBoolean.
  rewrite bool_decide_eq_false_2 by exact H. reflexivity.
Qed.

Lemma positive_nonzero (q : Qc) : 0 < q -> q <> 0.
Proof. intros H E. symmetry in E. revert E. apply Qclt_not_eq, H. Qed.

Lemma Q2Qc_nonzero (q : Q) : Qeq_bool q 0 = false -> Q2Qc q <> 0.
Proof.
  intros E H. apply Qeq_bool_neq in E. apply E.
  apply (f_equal this) in H. simpl in H.
  rewrite <- (Qred_correct q), H. reflexivity.
Qed.

(** ** Crack spreads *)

(** C3.  For a crude price [c > 0] and a product price [p > 0],
    [calculateCrack] returns [p * 42 - c] when [p < 10] and [p - c] when
    [p >= 10].  With crude at 66.50 and the product at 2.28, the product is
    worth 95.76 a barrel and the crack is 29.26.  The same rule holds on the
    doubles the server computes with, where the two figures are met up to
    rounding. *)
Theorem calculateCrack_normalizes :
  (forall c p : Qc, 0 < c -> 0 < p ->
     (p < Q2Qc 10 -> calculateCrack (num c) (num p) = num (p * Q2Qc 42 - c)) /\
     (Q2Qc 10 <= p -> calculateCrack (num c) (num p) = num (p - c))) /\
  productBarrel (lit 2.28) = lit 95.76 /\
  calculateCrack (lit 66.50) (lit 2.28) = lit 29.26 /\
  (forall c p : float,
     Binary64.falsy (Binary64.Num c) = false ->
     Binary64.falsy (Binary64.Num p) = false ->
     Binary64.calculateCrack (Binary64.Num c) (Binary64.Num p)
     = if PrimFloat.ltb p 10 then (p * 42 - c)%float else (p - c)%float) /\
  Binary64.close (Binary64.productBarrel (Binary64.Num 2.28)) 95.76 = true /\
  Binary64.close
    (Binary64.calculateCrack (Binary64.Num 66.50) (Binary64.Num 2.28)) 29.26
  = true.
Proof.
  split; [| split; [js_eval | split; [js_eval | split]]];
    [| | split; vm_compute; reflexivity].
  2: { intros c p Hc Hp. unfold Binary64.calculateCrack, Binary64.productBarrel.
       rewrite Hc, Hp. cbn [orb Binary64.ToNumber].
       destruct (PrimFloat.ltb p 10); reflexivity. }
  intros c p Hc Hp.
  unfold calculateCrack, productBarrel.
  rewrite !nonzero_truthy by now apply positive_nonzero.
  cbn [orb]. unfold vlt, lit, num. cbn [ToNumber nlt].
  split; intros H.
  - rewrite bool_decide_eq_true_2 by exact H. reflexivity.
  - rewrite bool_decide_eq_false_2 by now apply Qcle_not_lt. reflexivity.
Qed.

Lemma calculateCrack_normalizes_witness :
  0 < Q2Qc 71.80 /\ 0 < Q2Qc 75.80 /\ Q2Qc 10 <= Q2Qc 75.80 /\
  calculateCrack (num (Q2Qc 71.80)) (num (Q2Qc 75.80))
  = num (Q2Qc 75.80 - Q2Qc 71.80).
Proof.
  assert (Hc : 0 < Q2Qc 71.80) by reflexivity.
  assert (Hp : 0 < Q2Qc 75.80) by reflexivity.
  assert (H : Q2Qc 10 <= Q2Qc 75.80) by discriminate.
  split; [exact Hc | split; [exact Hp | split; [exact H |]]].
  exact (proj2 (proj1 calculateCrack_normalizes _ _ Hc Hp) H).
Defined.

Lemma calculateCrack321_present (w r h : Qc) :
  w <> 0 -> r <> 0 -> h <> 0 ->
  calculateCrack321 (num w) (num r) (num h)
  = num ((Q2Qc 2 * (r * Q2Qc 42) + h * Q2Qc 42) / Q2Qc 3 - w).
Proof.
  intros Hw Hr Hh. unfold calculateCrack321.
  rewrite !nonzero_truthy by assumption.
  cbn [orb]. unfold vsub, vdiv, vadd, vmul, lit, num.
  cbn [ToNumber nmul nadd nsub nneg ndiv].
  rewrite (bool_decide_eq_false_2 (Q2Qc 3 = 0)) by (apply Q2Qc_nonzero; reflexivity).
  reflexivity.
Qed.

(** C4.  For present (non-zero) prices [w], [r] and [h], [calculateCrack321]
    returns [((2 * (r * 42) + (h * 42)) / 3) - w].  With WTI at 66.50, RBOB at
    2.28 and heating oil at 2.55 the barrel values are 95.76 and 107.10 and
    the crack is 33.04.  The same formula holds on the doubles the server
    computes with, where the figure is met up to rounding. *)
Theorem calculateCrack321_formula :
  (forall w r h : Qc, w <> 0 -> r <> 0 -> h <> 0 ->
     calculateCrack321 (num w) (num r) (num h)
     = num ((Q2Qc 2 * (r * Q2Qc 42) + h * Q2Qc 42) / Q2Qc 3 - w)) /\
  vmul (lit 2.28) (lit 42) = lit 95.76 /\
  vmul (lit 2.55) (lit 42) = lit 107.10 /\
  calculateCrack321 (lit 66.50) (lit 2.28) (lit 2.55) = lit 33.04 /\
  (forall w r h : float,
     Binary64.falsy (Binary64.Num w) = false ->
     Binary64.falsy (Binary64.Num r) = false ->
     Binary64.falsy (Binary64.Num h) = false ->
     Binary64.calculateCrack321 (Binary64.Num w) (Binary64.Num r)
       (Binary64.Num h)
     = ((2 * (r * 42) + h * 42) / 3 - w)%float) /\
  Binary64.close
    (Binary64.calculateCrack321 (Binary64.Num 66.50) (Binary64.Num 2.28)
       (Binary64.Num 2.55)) 33.04
  = true.
Proof.
  split; [exact calculateCrack321_present |].
  split; [js_eval | split; [js_eval | split; [js_eval | split]]].
  - intros w r h Hw Hr Hh. unfold Binary64.calculateCrack321.
    rewrite Hw, Hr, Hh. reflexivity.
  - vm_compute. reflexivity.
Qed.

Lemma calculateCrack321_formula_witness :
  Q2Qc 71.80 <> 0 /\ Q2Qc 2.28 <> 0 /\ Q2Qc 2.55 <> 0 /\
  calculateCrack321 (num (Q2Qc 71.80)) (num (Q2Qc 2.28)) (num (Q2Qc 2.55))
  = num ((Q2Qc 2 * (Q2Qc 2.28 * Q2Qc 42) + Q2Qc 2.55 * Q2Qc 42) / Q2Qc 3
         - Q2Qc 71.80).
Proof.
  assert (Hw : Q2Qc 71.80 <> 0) by discriminate.
  assert (Hr : Q2Qc 2.28 <> 0) by discriminate.
  assert (Hh : Q2Qc 2.55 <> 0) by discriminate.
  split; [exact Hw | split; [exact Hr | split; [exact Hh |]]].
  exact (proj1 calculateCrack321_formula _ _ _ Hw Hr Hh).
Defined.

(** C5, as stated, fails: with products quoted per barrel (100 each, crude
    at 70) [calculateCrack321] still multiplies by 42 and returns 4130, where
    the shared rule gives 30, the value of [calculateCrack]. *)
Lemma calculateCrack321_ignores_threshold :
  calculateCrack321 (lit 70) (lit 100) (lit 100) = lit 4130 /\
  crack321_shared_rule (lit 70) (lit 100) (lit 100) = lit 30 /\
  calculateCrack (lit 70) (lit 100) = lit 30 /\
  calculateCrack321 (lit 70) (lit 100) (lit 100)
  <> crack321_shared_rule (lit 70) (lit 100) (lit 100) /\
  Binary64.calculateCrack321 (Binary64.Num 70) (Binary64.Num 100)
    (Binary64.Num 100) = 4130%float /\
  Binary64.calculateCrack (Binary64.Num 70) (Binary64.Num 100) = 30%float.
Proof.
  split; [js_eval | split; [js_eval | split; [js_eval | split; [js_eval |]]]].
  split; reflexivity.
Qed.

Lemma productBarrel_num (p : Qc) :
  productBarrel (num p)
  = if bool_decide (p < Q2Qc 10) then num (p * Q2Qc 42) else num p.
Proof.
  unfold productBarrel, vlt, vmul, lit, num. cbn [ToNumber nlt nmul].
  reflexivity.
Qed.

Lemma times42_fixed (p : Qc) : p * Q2Qc 42 = p -> p = 0.
Proof.
  intros H.
  assert (E : p * Q2Qc 41 = 0).
  { replace (Q2Qc 41) with (Q2Qc 42 - 1) by (apply Qc_is_canon; reflexivity).
    transitivity (p * Q2Qc 42 - p); [ring | rewrite H; ring]. }
  apply Qcmult_integral in E. destruct E as [E | E]; [exact E | discriminate E].
Qed.

(** C5, amended.  [calculateCrack321] multiplies each product price by 42
    whatever its size: for all non-zero prices, below 10 or not, it returns
    [((2 * (r * 42) + (h * 42)) / 3) - w], in exact arithmetic and on the
    doubles of the server alike.  [calculateCrack] multiplies by 42 only
    below 10.  So the two conversions of a price [p] agree exactly when
    [p < 10] (or [p] is 0), and for non-zero prices with both products below
    10 the 3-2-1 crack is the one of the shared rule; from 10 on
    [calculateCrack321] still converts. *)
Theorem calculateCrack321_normalization :
  (forall w r h : Qc, w <> 0 -> r <> 0 -> h <> 0 ->
     calculateCrack321 (num w) (num r) (num h)
     = num ((Q2Qc 2 * (r * Q2Qc 42) + h * Q2Qc 42) / Q2Qc 3 - w)) /\
  (forall w r h : float,
     Binary64.falsy (Binary64.Num w) = false ->
     Binary64.falsy (Binary64.Num r) = false ->
     Binary64.falsy (Binary64.Num h) = false ->
     Binary64.calculateCrack321 (Binary64.Num w) (Binary64.Num r)
       (Binary64.Num h)
     = ((2 * (r * 42) + h * 42) / 3 - w)%float) /\
  (forall p : float,
     Binary64.productBarrel (Binary64.Num p)
     = if PrimFloat.ltb p 10 then (p * 42)%float else p) /\
  (forall p : Qc, vmul (num p) (lit 42) = num (p * Q2Qc 42)) /\
  (forall p : Qc,
     vmul (num p) (lit 42) = productBarrel (num p) <-> p < Q2Qc 10 \/ p = 0) /\
  (forall w r h : Qc, w <> 0 -> r <> 0 -> h <> 0 ->
     r < Q2Qc 10 -> h < Q2Qc 10 ->
     calculateCrack321 (num w) (num r) (num h)
     = crack321_shared_rule (num w) (num r) (num h)).
Proof.
  split; [exact calculateCrack321_present |].
  split.
  { intros w r h Hw Hr Hh. unfold Binary64.calculateCrack321.
    rewrite Hw, Hr, Hh. reflexivity. }
  split; [reflexivity |].
  split; [reflexivity | split].
  - intros p. rewrite productBarrel_num.
    change (vmul (num p) (lit 42)) with (num (p * Q2Qc 42)).
    case_bool_decide as Hp.
    + split; [intros _; left; exact Hp | reflexivity].
    + split.
      * intros E. right. apply times42_fixed, num_inj, E.
      * intros [H | ->]; [contradiction | apply num_eq; reflexivity].
  - intros w r h Hw Hr Hh Hr10 Hh10.
    unfold crack321_shared_rule, calculateCrack321.
    rewrite !nonzero_truthy by assumption. cbn [orb].
    rewrite !productBarrel_num, !bool_decide_eq_true_2 by assumption.
    reflexivity.
Qed.

Lemma calculateCrack321_normalization_witness :
  Q2Qc 70 <> 0 /\ Q2Qc 100 <> 0 /\
  calculateCrack321 (num (Q2Qc 70)) (num (Q2Qc 100)) (num (Q2Qc 100))
  = num ((Q2Qc 2 * (Q2Qc 100 * Q2Qc 42) + Q2Qc 100 * Q2Qc 42) / Q2Qc 3
         - Q2Qc 70) /\
  Q2Qc 66.50 <> 0 /\ Q2Qc 2.28 <> 0 /\ Q2Qc 2.55 <> 0 /\
  Q2Qc 2.28 < Q2Qc 10 /\ Q2Qc 2.55 < Q2Qc 10 /\
  calculateCrack321 (num (Q2Qc 66.50)) (num (Q2Qc 2.28)) (num (Q2Qc 2.55))
  = crack321_shared_rule (num (Q2Qc 66.50)) (num (Q2Qc 2.28)) (num (Q2Qc 2.55)).
Proof.
  assert (H70 : Q2Qc 70 <> 0) by discriminate.
  assert (H100 : Q2Qc 100 <> 0) by discriminate.
  assert (Hw : Q2Qc 66.50 <> 0) by discriminate.
  assert (Hr : Q2Qc 2.28 <> 0) by discriminate.
  assert (Hh : Q2Qc 2.55 <> 0) by discriminate.
  assert (Hr10 : Q2Qc 2.28 < Q2Qc 10) by reflexivity.
  assert (Hh10 : Q2Qc 2.55 < Q2Qc 10) by reflexivity.
  split; [exact H70 | split; [exact H100 | split]].
  { exact (proj1 calculateCrack321_normalization _ _ _ H70 H100 H100). }
  split; [exact Hw | split; [exact Hr | split; [exact Hh |]]].
  split; [exact Hr10 | split; [exact Hh10 |]].
  exact (proj2 (proj2 (proj2 (proj2 (proj2 calculateCrack321_normalization))))
           _ _ _ Hw Hr Hh Hr10 Hh10).
Defined.

(** ** The Brent-WTI spread *)

(** C6, as stated, fails on an assembled mapping.  When the Brent chart
    comes back with a [meta] but no price and the WTI fetch falls back to
    66.50, both quotes are present, the Brent one with an [undefined] price:
    the spread is -66.50, which is neither 0 nor [brent.price - wti.price]
    ([NaN] there).  On doubles too [0 - 66.5] is -66.5. *)
Lemma brent_wti_without_brent_price :
  let s := server_js.fetchEnergyData brent_without_price "t" in
  let s' := part_000.fetchEnergyData brent_without_price "t" in
  (exists q, server_js.brent s = Some q /\ price q = Undefined) /\
  server_js.wti s = Some (server_js.getMockData "wti") /\
  server_js.brent_wti (server_js.snapshot_spreads s) = lit (-66.50) /\
  server_js.brent_wti (server_js.snapshot_spreads s) <> lit 0 /\
  vsub (opt_price (server_js.brent s)) (opt_price (server_js.wti s)) = Num NaN /\
  (exists q, part_000.brent s' = Some q /\ price q = Undefined) /\
  part_000.brent_wti (part_000.snapshot_spreads s') = lit (-66.50) /\
  Binary64.brent_wti_spread Binary64.Undefined (Binary64.Num 66.50)
  = (-66.50)%float.
Proof.
  cbv zeta.
  split; [eexists; split; reflexivity |].
  split; [reflexivity |].
  split; [js_eval |]. split; [js_eval |]. split; [reflexivity |].
  split; [eexists; split; reflexivity |].
  split; [js_eval | reflexivity].
Qed.

Lemma or_else_zero_num (q : Qc) : or_else (num q) (lit 0) = num q.
Proof.
  unfold or_else, num, ToBoolean. case_bool_decide as E; [| reflexivity].
  rewrite E. apply num_eq. reflexivity.
Qed.

(** ** The derived-product estimators *)

Lemma truthy_cases (b : value) :
  falsy b = false -> infinite b = false -> exists q : Qc, q <> 0 /\ b = num q.
Proof.
  destruct b as [| | [q | | s]]; try discriminate.
  intros H _. exists q. split; [| reflexivity].
  intros ->. discriminate H.
Qed.

(** C8, as stated, fails: with Brent at 10 the estimate of the 380 fuel oil
    has price 0, in exact arithmetic and in doubles alike (and so do the 0.5%
    fuel oil with Brent at -4 and the gasoline with RBOB at 0.02). *)
Lemma estimate_price_zero :
  price (estimateFuelOil380 (lit 10)) = lit 0 /\
  price (estimateFuelOil05 (lit (-4))) = lit 0 /\
  price (estimateGas92 (lit 0.02)) = lit 0 /\
  Binary64.price (Binary64.estimateFuelOil380 (Binary64.Num 10)) = 0%float.
Proof. split; [js_eval | split; [js_eval | split; [js_eval | reflexivity]]]. Qed.

Lemma sum_zero (q a : Qc) : q + a = Q2Qc 0 <-> q = - a.
Proof.
  split; intros H.
  - transitivity (q + a - a); [ring | rewrite H; ring].
  - rewrite H. ring.
Qed.

(** C8, amended.  Each estimator returns a Quote with a numeric price for
    every input.  An absent (falsy) benchmark is replaced by the default
    (71.80, 71.80, 2.28), giving the prices 75.80, 61.80 and 2.26; a present
    benchmark [q] gives [q + 4], [q - 10] and [q - 0.02], which is 0 exactly
    when [q] is -4, 10 or 0.02. *)
Theorem estimators_price :
  (forall b : value,
     (exists n, price (estimateFuelOil05 b) = Num n) /\
     (exists n, price (estimateFuelOil380 b) = Num n) /\
     (exists n, price (estimateGas92 b) = Num n)) /\
  (forall b : value, falsy b = true ->
     price (estimateFuelOil05 b) = lit 75.80 /\
     price (estimateFuelOil380 b) = lit 61.80 /\
     price (estimateGas92 b) = lit 2.26) /\
  (forall q : Qc, q <> 0 ->
     price (estimateFuelOil05 (num q)) = num (q + Q2Qc 4) /\
     price (estimateFuelOil380 (num q)) = num (q - Q2Qc 10) /\
     price (estimateGas92 (num q)) = num (q + Q2Qc (-0.02))) /\
  (forall q : Qc, q <> 0 ->
     (price (estimateFuelOil05 (num q)) = lit 0 <-> q = Q2Qc (-4)) /\
     (price (estimateFuelOil380 (num q)) = lit 0 <-> q = Q2Qc 10) /\
     (price (estimateGas92 (num q)) = lit 0 <-> q = Q2Qc 0.02)).
Proof.
  assert (P : forall q : Qc, q <> 0 ->
     price (estimateFuelOil05 (num q)) = num (q + Q2Qc 4) /\
     price (estimateFuelOil380 (num q)) = num (q - Q2Qc 10) /\
     price (estimateGas92 (num q)) = num (q + Q2Qc (-0.02))).
  { intros q Hq.
    unfold estimateFuelOil05, estimateFuelOil380, estimateGas92.
    rewrite !nonzero_truthy by exact Hq. cbn [price]. repeat split. }
  split; [| split; [| split; [exact P |]]].
  - intros b. repeat split; eexists; reflexivity.
  - intros b Hb.
    unfold estimateFuelOil05, estimateFuelOil380, estimateGas92.
    rewrite Hb. cbn [price]. repeat split; js_eval.
  - intros q Hq. destruct (P q Hq) as (-> & -> & ->).
    assert (E4 : - Q2Qc 4 = Q2Qc (-4)) by (apply Qc_is_canon; reflexivity).
    assert (E10 : - - Q2Qc 10 = Q2Qc 10) by (apply Qc_is_canon; reflexivity).
    assert (E2 : - Q2Qc (-0.02) = Q2Qc 0.02) by (apply Qc_is_canon; reflexivity).
    unfold lit. rewrite <- E4, <- E10, <- E2.
    repeat split; intros H;
      first [ apply sum_zero, num_inj, H
            | f_equal; apply sum_zero, H ].
Qed.

Lemma estimators_price_witness :
  falsy Undefined = true /\
  price (estimateFuelOil05 Undefined) = lit 75.80 /\
  price (estimateFuelOil380 Undefined) = lit 61.80 /\
  price (estimateGas92 Undefined) = lit 2.26.
Proof.
  split; [reflexivity |].
  exact (proj1 (proj2 estimators_price) Undefined eq_refl).
Defined.

Lemma estimate_change_exact (b : value) :
  infinite b = false ->
  change (estimateFuelOil05 b)
  = vsub (price (estimateFuelOil05 b)) (previousClose (estimateFuelOil05 b)) /\
  change (estimateFuelOil380 b)
  = vsub (price (estimateFuelOil380 b)) (previousClose (estimateFuelOil380 b)) /\
  change (estimateGas92 b)
  = vsub (price (estimateGas92 b)) (previousClose (estimateGas92 b)).
Proof.
  intros Hb. destruct (falsy b) eqn:F.
  - unfold estimateFuelOil05, estimateFuelOil380, estimateGas92.
    rewrite F. cbn [price change previousClose]. repeat split; js_eval.
  - destruct (truthy_cases b F Hb) as (q & Hq & ->).
    unfold estimateFuelOil05, estimateFuelOil380, estimateGas92.
    rewrite !nonzero_truthy by exact Hq. cbn [price change previousClose].
    unfold vsub, vadd, lit, num. cbn [ToNumber nsub nadd nneg].
    assert (E : Q2Qc (-0.30) = - Q2Qc 0.30) by (apply Qc_is_canon; reflexivity).
    rewrite E. repeat split; do 2 f_equal; ring.
Qed.

(** C10, as stated, fails on the doubles of the server: with the benchmark
    absent, [estimateFuelOil380] has price 61.8 and previous close
    62.099999999999994 (the rounded sum of 61.8 and 0.3), so
    [price - previousClose] is -0.29999999999999716 and not the [change]
    -0.3; likewise [estimateGas92] has 0.029999999999999805 against 0.03. *)
Lemma estimate_change_rounds :
  (let q := Binary64.estimateFuelOil380 Binary64.Undefined in
   Binary64.change q = (-0.30)%float /\
   (Binary64.price q - Binary64.previousClose q
    = -0.29999999999999716)%float /\
   PrimFloat.eqb (Binary64.change q)
     (Binary64.price q - Binary64.previousClose q) = false) /\
  (let q := Binary64.estimateGas92 Binary64.Undefined in
   Binary64.change q = 0.03%float /\
   (Binary64.price q - Binary64.previousClose q
    = 0.029999999999999805)%float /\
   PrimFloat.eqb (Binary64.change q)
     (Binary64.price q - Binary64.previousClose q) = false).
Proof. cbv zeta. repeat split; vm_compute; reflexivity. Qed.

(** C10, amended.  For every benchmark price, absent or finite, the quote of
    each estimator has [change = price - previousClose] in exact arithmetic.
    On the doubles of the server the two agree up to rounding: with the
    benchmark absent they are equal for [estimateFuelOil05] and less than
    [1e-12] apart for [estimateFuelOil380] and [estimateGas92]. *)
Theorem estimate_change_up_to_rounding :
  (forall b : value, infinite b = false ->
     change (estimateFuelOil05 b)
     = vsub (price (estimateFuelOil05 b)) (previousClose (estimateFuelOil05 b)) /\
     change (estimateFuelOil380 b)
     = vsub (price (estimateFuelOil380 b))
         (previousClose (estimateFuelOil380 b)) /\
     change (estimateGas92 b)
     = vsub (price (estimateGas92 b)) (previousClose (estimateGas92 b))) /\
  (let q := Binary64.estimateFuelOil05 Binary64.Undefined in
   PrimFloat.eqb (Binary64.change q)
     (Binary64.price q - Binary64.previousClose q) = true) /\
  (let q := Binary64.estimateFuelOil380 Binary64.Undefined in
   Binary64.close (Binary64.change q)
     (Binary64.price q - Binary64.previousClose q) = true) /\
  (let q := Binary64.estimateGas92 Binary64.Undefined in
   Binary64.close (Binary64.change q)
     (Binary64.price q - Binary64.previousClose q) = true).
Proof.
  split; [exact estimate_change_exact |].
  cbv zeta. repeat split; vm_compute; reflexivity.
Qed.

Lemma estimate_change_up_to_rounding_witness :
  infinite (lit 71.80) = false /\
  change (estimateFuelOil380 (lit 71.80))
  = vsub (price (estimateFuelOil380 (lit 71.80)))
      (previousClose (estimateFuelOil380 (lit 71.80))).
Proof.
  split; [reflexivity |].
  exact (proj1 (proj2 (proj1 estimate_change_up_to_rounding (lit 71.80) eq_refl))).
Defined.

(** ** The percentage change of a quote *)

(** C7, as stated, fails.  An estimated quote carries a fixed percentage:
    with Brent at 96 the 0.5% fuel oil has price 100, previous close 99.50
    and [changePercent] 0.67, where the formula gives 100/199, more than 0.1
    away.  A fallback quote does too: 1.22 for WTI, where the formula gives
    800/657.  And a fetched quote whose previous close is 0 has an infinite
    [changePercent], not 0.  The doubles of the server show the same. *)
Lemma changePercent_not_formula :
  (changePercent (estimateFuelOil05 (lit 96)) = lit 0.67 /\
   percent_of_close (estimateFuelOil05 (lit 96)) = lit (100 # 199) /\
   within 0.1 (changePercent (estimateFuelOil05 (lit 96)))
     (percent_of_close (estimateFuelOil05 (lit 96))) = false) /\
  (changePercent (server_js.getMockData "wti") = lit 1.22 /\
   percent_of_close (server_js.getMockData "wti") = lit (800 # 657) /\
   within 0.001 (changePercent (server_js.getMockData "wti"))
     (percent_of_close (server_js.getMockData "wti")) = false) /\
  (let net := constant_upstream (lit 50) (lit 0) [lit 0; lit 50] in
   exists q, fetchYahooPrice net "CL=F" = Returned q /\
     price q = lit 50 /\ previousClose q = lit 0 /\
     changePercent q = Num (Inf false)) /\
  (let q := Binary64.estimateFuelOil05 (Binary64.Num 96) in
   Binary64.changePercent q = 0.67%float /\
   PrimFloat.ltb 0.1
     (abs (Binary64.changePercent q - Binary64.percent_of_close q)) = true) /\
  (let net := Binary64.constant_upstream (Binary64.Num 50) (Binary64.Num 0)
                [Binary64.Num 0; Binary64.Num 50] in
   exists q, Binary64.fetchYahooPrice net "CL=F" = Returned q /\
     Binary64.fetched_previousClose q = Binary64.Num 0 /\
     Binary64.fetched_changePercent q = infinity).
Proof.
  split; [| split; [| split; [| split]]].
  - split; [js_eval | split; [js_eval | vm_compute; reflexivity]].
  - split; [js_eval | split; [js_eval | vm_compute; reflexivity]].
  - cbv zeta. eexists. split; [reflexivity |].
    split; [js_eval | split; [js_eval | vm_compute; reflexivity]].
  - cbv zeta. split; vm_compute; reflexivity.
  - cbv zeta. eexists. split; [reflexivity |].
    split; vm_compute; reflexivity.
Qed.

Lemma percent_finite (p c : Qc) :
  c <> 0 ->
  vmul (vdiv (vsub (num p) (num c)) (num c)) (lit 100)
  = num ((p - c) / c * Q2Qc 100).
Proof.
  intros Hc. unfold vmul, vdiv, vsub, lit, num.
  cbn [ToNumber nsub nadd nneg ndiv].
  rewrite bool_decide_eq_false_2 by exact Hc. reflexivity.
Qed.

(** C7, amended.  A quote returned by [fetchYahooPrice] has
    [change = price - previousClose] and
    [changePercent = (price - previousClose) / previousClose * 100]: on the
    doubles of the server [changePercent] is that very expression as the
    code evaluates it, so it meets the formula within floating tolerance
    (1.2176560121765556 for 66.50 against 65.70, less than [1e-12] from
    800/657); in exact arithmetic, for a finite price [p] and a finite
    non-zero previous close [c], it is the number [(p - c) / c * 100].  The
    estimated quotes carry the fixed percentages 0.67, -0.48 and 1.35
    whatever the benchmark, and the fallback quotes their fixed table
    entries. *)
Theorem changePercent_of_fetched :
  (forall (net : Upstream) (symbol : string) (q : Quote),
     fetchYahooPrice net symbol = Returned q ->
     change q = vsub (price q) (previousClose q) /\
     changePercent q = percent_of_close q /\
     (forall p c : Qc, price q = num p -> previousClose q = num c -> c <> 0 ->
        changePercent q = num ((p - c) / c * Q2Qc 100))) /\
  (forall b : value,
     changePercent (estimateFuelOil05 b) = lit 0.67 /\
     changePercent (estimateFuelOil380 b) = lit (-0.48) /\
     changePercent (estimateGas92 b) = lit 1.35) /\
  (changePercent (server_js.getMockData "wti") = lit 1.22 /\
   changePercent (server_js.getMockData "brent") = lit 1.27 /\
   changePercent (server_js.getMockData "rbob") = lit 1.79 /\
   changePercent (server_js.getMockData "ho") = lit (-1.16)) /\
  (forall (net : string -> Binary64.Yahoo.Response) (symbol : string)
          (q : Binary64.Fetched),
     Binary64.fetchYahooPrice net symbol = Returned q ->
     let p := Binary64.ToNumber (Binary64.fetched_price q) in
     let c := Binary64.ToNumber (Binary64.fetched_previousClose q) in
     Binary64.fetched_change q = (p - c)%float /\
     Binary64.fetched_changePercent q = ((p - c) / c * 100)%float) /\
  (let net := Binary64.constant_upstream (Binary64.Num 66.50)
                (Binary64.Num 65.70) [Binary64.Num 65.70; Binary64.Num 66.50] in
   exists q, Binary64.fetchYahooPrice net "CL=F" = Returned q /\
     Binary64.fetched_change q = 0.7999999999999972%float /\
     Binary64.fetched_changePercent q = 1.2176560121765556%float /\
     Binary64.close (Binary64.fetched_changePercent q) (800 / 657) = true) /\
  (forall b : Binary64.value,
     Binary64.changePercent (Binary64.estimateFuelOil05 b) = 0.67%float /\
     Binary64.changePercent (Binary64.estimateFuelOil380 b) = (-0.48)%float /\
     Binary64.changePercent (Binary64.estimateGas92 b) = 1.35%float).
Proof.
  split; [| split; [intros b; repeat split | split; [repeat split |]]].
  - intros net symbol q H. unfold fetchYahooPrice in H.
    destruct (net symbol) as [message | [result |]]; try discriminate H.
    destruct (Yahoo.meta result) as [quote |]; try discriminate H.
    injection H as <-. cbn [price change changePercent previousClose].
    split; [reflexivity | split; [reflexivity |]].
    intros p c Hp Hc Hnz. unfold percent_of_close. rewrite Hp, Hc.
    apply percent_finite, Hnz.
  - split; [| split; [| intros b; repeat split]].
    + intros net symbol q H. unfold Binary64.fetchYahooPrice in H.
      destruct (net symbol) as [message | [result |]]; try discriminate H.
      destruct (Binary64.Yahoo.meta result) as [quote |]; try discriminate H.
      injection H as <-. cbv zeta.
      cbn [Binary64.fetched_price Binary64.fetched_change
           Binary64.fetched_changePercent Binary64.fetched_previousClose].
      split; reflexivity.
    + cbv zeta. eexists. split; [reflexivity |].
      repeat split; vm_compute; reflexivity.
Qed.

Lemma changePercent_of_fetched_witness :
  (let net := constant_upstream (lit 66.50) (lit 65.70) [lit 65.70; lit 66.50] in
   exists q, fetchYahooPrice net "CL=F" = Returned q /\
     changePercent q = num ((Q2Qc 66.50 - Q2Qc 65.70) / Q2Qc 65.70 * Q2Qc 100)) /\
  (let net := Binary64.constant_upstream (Binary64.Num 66.50)
                (Binary64.Num 65.70) [Binary64.Num 65.70; Binary64.Num 66.50] in
   exists q, Binary64.fetchYahooPrice net "CL=F" = Returned q /\
     Binary64.fetched_changePercent q
     = ((66.50 - 65.70) / 65.70 * 100)%float).
Proof.
  split; cbv zeta; eexists; (split; [reflexivity |]).
  - assert (Hc : Q2Qc 65.70 <> 0) by discriminate.
    exact (proj2 (proj2 (proj1 changePercent_of_fetched
                           (constant_upstream (lit 66.50) (lit 65.70)
                              [lit 65.70; lit 66.50])
                           "CL=F" _ eq_refl))
             _ _ eq_refl eq_refl Hc).
  - exact (proj2 (proj1 (proj2 (proj2 (proj2 changePercent_of_fetched)))
                    (Binary64.constant_upstream (Binary64.Num 66.50)
                       (Binary64.Num 65.70)
                       [Binary64.Num 65.70; Binary64.Num 66.50])
                    "CL=F" _ eq_refl)).
Defined.

(** ** The cached endpoint *)

Section EndpointProperties.

Context {Snapshot : Type}.
Implicit Types (c : Cache Snapshot) (refresh : outcome Snapshot).
Implicit Types (data : Snapshot) (now : Z).

Local Open Scope Z_scope.

Lemma handler_hit c data now refresh :
  cachedData c = Some data ->
  now - lastFetch c < CACHE_DURATION ->
  handler now refresh c
  = ({| response := Json200 data; fetches := 0; produced := None |}, c).
Proof.
  intros Hc Hage. unfold handler. rewrite Hc.
  apply Z.ltb_lt in Hage. rewrite Hage. reflexivity.
Qed.

Lemma handler_expired c now refresh :
  CACHE_DURATION <= now - lastFetch c ->
  fetches (fst (handler now refresh c)) = 1%nat.
Proof.
  intros Hage. unfold handler.
  apply Z.ltb_ge in Hage. rewrite Hage.
  destruct (cachedData c), refresh; reflexivity.
Qed.

Lemma handler_failure c now message :
  handler now (Thrown message) c
  = ({| response := match cachedData c with
                    | Some data => Json200 data
                    | None => Json500 "Failed to fetch energy data"
                    end;
        fetches := if bool_decide (is_Some (cachedData c))
                      && (now - lastFetch c <? CACHE_DURATION)
                   then 0%nat else 1%nat;
        produced := None |}, c).
Proof.
  unfold handler.
  destruct (cachedData c), (now - lastFetch c <? CACHE_DURATION); reflexivity.
Qed.

Lemma handler_cache c now refresh :
  cachedData (snd (handler now refresh c))
  = match produced (fst (handler now refresh c)) with
    | Some data => Some data
    | None => cachedData c
    end.
Proof.
  unfold handler.
  destruct (cachedData c) eqn:E, (now - lastFetch c <? CACHE_DURATION), refresh;
    cbn; congruence.
Qed.

(** The cache holds the last snapshot the served requests produced. *)
Lemma serve_cache (requests : list (Z * outcome Snapshot)) c :
  cachedData (snd (serve requests c))
  = match last_produced (fst (serve requests c)) with
    | Some data => Some data
    | None => cachedData c
    end.
Proof.
  revert c. induction requests as [| [now refresh] rest IH]; intros c.
  - reflexivity.
  - cbn [serve].
    destruct (handler now refresh c) as [s c1] eqn:H.
    specialize (IH c1).
    destruct (serve rest c1) as [ss c2]. cbn [fst snd last_produced] in *.
    rewrite IH. destruct (last_produced ss); [reflexivity |].
    pose proof (handler_cache c now refresh) as Hc.
    rewrite H in Hc. cbn [fst snd] in Hc. rewrite Hc.
    destruct (produced s); reflexivity.
Qed.

Lemma last_produced_None (history : list (Served Snapshot)) :
  last_produced history = None <-> Forall (fun s => produced s = None) history.
Proof.
  induction history as [| s rest IH]; cbn [last_produced].
  - split; [constructor | reflexivity].
  - destruct (last_produced rest) as [d |].
    + split; [discriminate |].
      intros H. inversion H as [| ? ? _ Hrest]. apply IH in Hrest. discriminate.
    + split.
      * intros H. constructor; [exact H | apply IH; reflexivity].
      * intros H. inversion H. assumption.
Qed.

Lemma handler_refreshed c now data :
  (cachedData c = None \/ CACHE_DURATION <= now - lastFetch c) ->
  handler now (Returned data) c
  = ({| response := Json200 data; fetches := 1; produced := Some data |},
     {| cachedData := Some data; lastFetch := now |}).
Proof.
  intros H. unfold handler. destruct H as [-> | Hage].
  - reflexivity.
  - apply Z.ltb_ge in Hage. rewrite Hage. destruct (cachedData c); reflexivity.
Qed.

Lemma handler_stale c now data message :
  cachedData c = Some data -> CACHE_DURATION <= now - lastFetch c ->
  handler now (Thrown message) c
  = ({| response := Json200 data; fetches := 1; produced := None |}, c).
Proof.
  intros Hc Hage. rewrite handler_failure, Hc.
  apply Z.ltb_ge in Hage. rewrite Hage, andb_false_r. reflexivity.
Qed.

(** C2.  With a snapshot in the cache, a request younger than the
    five-minute window (such as four minutes after the refresh) is answered
    with the cached snapshot and no call of [fetchEnergyData], whatever that
    call would yield.  A request past the window (such as six minutes after)
    calls [fetchEnergyData] exactly once and goes by what the call yields:
    when it resolves, the answer is the new snapshot, which is stored with
    the arrival time of the request; when it throws, the answer is the
    cached snapshot and the cache is left alone. *)
Theorem cache_freshness c data now refresh :
  cachedData c = Some data ->
  CACHE_DURATION = 300000 /\
  (now - lastFetch c < CACHE_DURATION ->
     handler now refresh c
     = ({| response := Json200 data; fetches := 0; produced := None |}, c)) /\
  (CACHE_DURATION <= now - lastFetch c ->
     fetches (fst (handler now refresh c)) = 1%nat /\
     (forall fresh, refresh = Returned fresh ->
        handler now refresh c
        = ({| response := Json200 fresh; fetches := 1;
              produced := Some fresh |},
           {| cachedData := Some fresh; lastFetch := now |})) /\
     (forall message, refresh = Thrown message ->
        handler now refresh c
        = ({| response := Json200 data; fetches := 1; produced := None |},
           c))) /\
  (now = lastFetch c + 4 * 60 * 1000 ->
     response (fst (handler now refresh c)) = Json200 data /\
     fetches (fst (handler now refresh c)) = 0%nat) /\
  (now = lastFetch c + 6 * 60 * 1000 ->
     fetches (fst (handler now refresh c)) = 1%nat /\
     (forall fresh, refresh = Returned fresh ->
        handler now refresh c
        = ({| response := Json200 fresh; fetches := 1;
              produced := Some fresh |},
           {| cachedData := Some fresh; lastFetch := now |}))).
Proof.
  intros Hc. split; [reflexivity |]. split; [| split; [| split]].
  - apply handler_hit, Hc.
  - intros Hage. split; [apply handler_expired, Hage | split].
    + intros fresh ->. apply handler_refreshed. right. exact Hage.
    + intros message ->. apply handler_stale; assumption.
  - intros ->. rewrite (handler_hit c data) by (trivial; unfold CACHE_DURATION; lia).
    split; reflexivity.
  - intros ->.
    assert (Hage : CACHE_DURATION <= lastFetch c + 6 * 60 * 1000 - lastFetch c)
      by (unfold CACHE_DURATION; lia).
    split; [apply handler_expired, Hage |].
    intros fresh ->. apply handler_refreshed. right. exact Hage.
Qed.

(** C9.  A failed refresh leaves the cache as it was, [cachedData] and
    [lastFetch] alike, and stores no snapshot; a later request past the
    window calls [fetchEnergyData] again. *)
Theorem failed_refresh_keeps_cache c now message :
  snd (handler now (Thrown message) c) = c /\
  produced (fst (handler now (Thrown message) c)) = None /\
  (forall now' refresh,
     CACHE_DURATION <= now' - lastFetch c ->
     fetches (fst (handler now' refresh (snd (handler now (Thrown message) c))))
     = 1%nat).
Proof.
  rewrite handler_failure. cbn [fst snd produced].
  split; [reflexivity | split; [reflexivity |]].
  intros now' refresh. apply handler_expired.
Qed.

(** C1.  Over any sequence of requests served from the empty cache, the
    cache holds the last snapshot produced so far.  A request whose refresh
    fails is answered 200 with that snapshot, when there is one; and a
    request is answered 500 exactly when its refresh fails and no snapshot
    has been produced before. *)
Theorem failure_serves_last_good
    (requests : list (Z * outcome Snapshot)) now refresh :
  let history := fst (serve requests initial) in
  let c := snd (serve requests initial) in
  let s := fst (handler now refresh c) in
  cachedData c = last_produced history /\
  (forall message data,
     refresh = Thrown message -> last_produced history = Some data ->
     response s = Json200 data /\ snd (handler now refresh c) = c) /\
  ((exists error, response s = Json500 error) <->
   (exists message, refresh = Thrown message) /\ last_produced history = None) /\
  (last_produced history = None <->
   Forall (fun served => produced served = None) history).
Proof.
  cbv zeta.
  pose proof (serve_cache requests initial) as Hc.
  destruct (serve requests initial) as [history c]. cbn [fst snd] in *.
  assert (E : cachedData c = last_produced history).
  { rewrite Hc. destruct (last_produced history); reflexivity. }
  clear Hc. split; [exact E |].
  split; [| split; [| apply last_produced_None]].
  - intros message data -> Hd. rewrite handler_failure, E, Hd.
    split; reflexivity.
  - rewrite <- E. unfold handler.
    destruct (cachedData c), (now - lastFetch c <? CACHE_DURATION), refresh;
      cbn [fst response]; split;
      try (intros [error H]; discriminate H);
      try (intros [[message H] H']; discriminate);
      eauto.
Qed.

End EndpointProperties.

(** ** Instances *)

Lemma cache_freshness_witness :
  let c : Cache string := {| cachedData := Some "snapshot"; lastFetch := 1000 |} in
  cachedData c = Some "snapshot" /\
  (241000 - lastFetch c < CACHE_DURATION)%Z /\
  handler 241000 (Returned "new") c
  = ({| response := Json200 "snapshot"; fetches := 0; produced := None |}, c) /\
  (CACHE_DURATION <= 361000 - lastFetch c)%Z /\
  handler 361000 (Returned "new") c
  = ({| response := Json200 "new"; fetches := 1; produced := Some "new" |},
     {| cachedData := Some "new"; lastFetch := 361000 |}) /\
  handler 361000 (Thrown "down") c
  = ({| response := Json200 "snapshot"; fetches := 1; produced := None |}, c).
Proof.
  cbv zeta.
  assert (Hage : (CACHE_DURATION <= 361000 - 1000)%Z) by discriminate.
  split; [reflexivity | split; [reflexivity |]].
  split; [| split; [exact Hage | split]].
  - exact (proj1 (proj2 (cache_freshness
                           {| cachedData := Some "snapshot"; lastFetch := 1000 |}
                           "snapshot" 241000%Z (Returned "new") eq_refl))
             eq_refl).
  - exact (proj1 (proj2 (proj1 (proj2 (proj2 (cache_freshness
                           {| cachedData := Some "snapshot"; lastFetch := 1000 |}
                           "snapshot" 361000%Z (Returned "new") eq_refl)))
                          Hage)) "new" eq_refl).
  - exact (proj2 (proj2 (proj1 (proj2 (proj2 (cache_freshness
                           {| cachedData := Some "snapshot"; lastFetch := 1000 |}
                           "snapshot" 361000%Z (Thrown "down") eq_refl)))
                          Hage)) "down" eq_refl).
Defined.

Lemma failed_refresh_keeps_cache_witness :
  let c : Cache string := {| cachedData := Some "snapshot"; lastFetch := 1000 |} in
  (CACHE_DURATION <= 700000 - lastFetch c)%Z /\
  snd (handler 400000 (Thrown "timeout") c) = c /\
  fetches (fst (handler 700000 (Returned "new")
                  (snd (handler 400000 (Thrown "timeout") c)))) = 1%nat.
Proof.
  cbv zeta.
  assert (H : (CACHE_DURATION <= 700000 - 1000)%Z) by discriminate.
  split; [exact H | split].
  - exact (proj1 (failed_refresh_keeps_cache
                    {| cachedData := Some "snapshot"; lastFetch := 1000 |}
                    400000%Z "timeout")).
  - exact (proj2 (proj2 (failed_refresh_keeps_cache
                           {| cachedData := Some "snapshot"; lastFetch := 1000 |}
                           400000%Z "timeout"))
             700000%Z (Returned "new") H).
Defined.

Lemma failure_serves_last_good_witness :
  let requests := [(0%Z, Thrown "down"); (1000%Z, Returned "first")] in
  last_produced (fst (serve requests initial)) = Some "first" /\
  response (fst (handler 400000 (Thrown "down") (snd (serve requests initial))))
  = Json200 "first".
Proof.
  cbv zeta. split; [reflexivity |].
  exact (proj1 (proj1 (proj2 (failure_serves_last_good
                                [(0%Z, Thrown "down"); (1000%Z, Returned "first")]
                                400000%Z (Thrown "down")))
                  "down" "first" eq_refl eq_refl)).
Defined.

(** * Further properties of the pipeline *)

(** ** The loop over the symbols *)

Section FetchLoop.

Variable getMockData : string -> Quote.
Variable net : Upstream.

Local Abbreviation step := (fetch_step getMockData net).

Lemma step_insert data key symbol :
  step data (key, symbol)
  = <[key := fetched_or_fallback getMockData net key symbol]> data.
Proof.
  unfold fetch_step, fetched_or_fallback.
  destruct (fetchYahooPrice net symbol); reflexivity.
Qed.

Lemma fold_step_other (symbols : list (string * string)) data key :
  key ∉ symbols.*1 -> fold_left step symbols data !! key = data !! key.
Proof.
  revert data. induction symbols as [| [k s] rest IH]; intros data Hk.
  - reflexivity.
  - cbn [fold_left]. rewrite fmap_cons in Hk. cbn [fst] in Hk.
    apply not_elem_of_cons in Hk as [Hne Hrest].
    rewrite IH by exact Hrest.
    rewrite step_insert. apply lookup_insert_ne. congruence.
Qed.

Lemma fold_step_entry (symbols : list (string * string)) data key symbol :
  NoDup symbols.*1 -> (key, symbol) ∈ symbols ->
  fold_left step symbols data !! key
  = Some (fetched_or_fallback getMockData net key symbol).
Proof.
  revert data. induction symbols as [| [k s] rest IH]; intros data Hnd Hin.
  - inversion Hin.
  - rewrite fmap_cons in Hnd. cbn [fst] in Hnd.
    apply NoDup_cons in Hnd as [Hk Hnd].
    cbn [fold_left]. apply elem_of_cons in Hin as [E | Hin].
    + injection E as -> ->.
      rewrite fold_step_other by exact Hk.
      rewrite step_insert. apply lookup_insert_eq.
    + apply IH; assumption.
Qed.

(** X1.  Whatever registry of distinct keys the loop runs over, it leaves
    under each key of the registry the quote fetched for its ticker, or the
    fallback of the key when that fetch throws, and nothing under any other
    key: one failing ticker neither stops the loop nor touches another
    key. *)
Theorem fetchQuotes_lookup (symbols : list (string * string)) :
  NoDup symbols.*1 ->
  (forall key symbol, (key, symbol) ∈ symbols ->
     fetchQuotes getMockData symbols net !! key
     = Some (fetched_or_fallback getMockData net key symbol)) /\
  (forall key, key ∉ symbols.*1 ->
     fetchQuotes getMockData symbols net !! key = None).
Proof.
  intros Hnd. unfold fetchQuotes. split.
  - intros key symbol Hin. apply (fold_step_entry symbols ∅ key symbol Hnd Hin).
  - intros key Hk. rewrite (fold_step_other symbols ∅ key Hk).
    apply lookup_empty.
Qed.

End FetchLoop.

Lemma fetchQuotes_entry getMockData net symbols key symbol :
  NoDup symbols.*1 -> (key, symbol) ∈ symbols ->
  fetchQuotes getMockData symbols net !! key
  = Some (fetched_or_fallback getMockData net key symbol).
Proof. intros Hnd Hin. apply (fold_step_entry _ _ symbols ∅ _ _ Hnd Hin). Qed.

Lemma fetchQuotes_ext getMockData net net' symbols :
  (forall key symbol, (key, symbol) ∈ symbols ->
     fetched_or_fallback getMockData net key symbol
     = fetched_or_fallback getMockData net' key symbol) ->
  fetchQuotes getMockData symbols net = fetchQuotes getMockData symbols net'.
Proof.
  unfold fetchQuotes. generalize (∅ : gmap string Quote).
  induction symbols as [| [k s] rest IH]; intros data H.
  - reflexivity.
  - cbn [fold_left].
    assert (E : match fetchYahooPrice net s with
                | Returned price => <[k := price]> data
                | Thrown _ => <[k := getMockData k]> data
                end
                = match fetchYahooPrice net' s with
                  | Returned price => <[k := price]> data
                  | Thrown _ => <[k := getMockData k]> data
                  end).
    { pose proof (H k s (list_elem_of_here _ _)) as E.
      unfold fetched_or_fallback in E.
      destruct (fetchYahooPrice net s), (fetchYahooPrice net' s);
        congruence. }
    rewrite E. apply IH. intros key symbol Hin. apply H.
    apply list_elem_of_further, Hin.
Qed.

Lemma server_js_symbols_NoDup : NoDup server_js.symbols.*1.
Proof. apply (bool_decide_unpack _). vm_compute. reflexivity. Qed.

Lemma part_000_symbols_NoDup : NoDup part_000.symbols.*1.
Proof. apply (bool_decide_unpack _). vm_compute. reflexivity. Qed.

(** ** The Brent-WTI spread of a mapping *)

Lemma or_else_zero_falsy (v : value) :
  falsy v = true -> or_else v (lit 0) = lit 0.
Proof.
  unfold falsy, or_else. destruct (ToBoolean v); [discriminate | reflexivity].
Qed.

(** C6, amended.  In both revisions [brent_wti] is
    [(brent.price || 0) - (wti.price || 0)]: a quote that is missing, or
    whose price is unusable ([undefined], [null], 0 or [NaN]), counts as a
    price of 0.  So the spread is [brent.price - wti.price] when both quotes
    have finite prices, 0 when neither price is usable, [- wti.price] when
    only the Brent price is unusable and [brent.price] when only the WTI
    price is.  In a mapping that [fetchEnergyData] assembled both quotes are
    always present, so there only a price can be unusable.  The same holds
    on the doubles of the server. *)
Theorem brent_wti_defaults (data : gmap string Quote) :
  server_js.brent_wti (server_js.spreads data) = brent_wti_spread data /\
  part_000.brent_wti (part_000.spreads data) = brent_wti_spread data /\
  (forall b w : Qc,
     opt_price (data !! "brent") = num b -> opt_price (data !! "wti") = num w ->
     brent_wti_spread data = num (b - w)) /\
  (falsy (opt_price (data !! "brent")) = true ->
   falsy (opt_price (data !! "wti")) = true ->
     brent_wti_spread data = lit 0) /\
  (forall w : Qc,
     falsy (opt_price (data !! "brent")) = true ->
     opt_price (data !! "wti") = num w ->
     brent_wti_spread data = num (- w)) /\
  (forall b : Qc,
     opt_price (data !! "brent") = num b ->
     falsy (opt_price (data !! "wti")) = true ->
     brent_wti_spread data = num b) /\
  (forall net : Upstream,
     is_Some (fetchQuotes server_js.getMockData server_js.symbols net !! "brent") /\
     is_Some (fetchQuotes server_js.getMockData server_js.symbols net !! "wti") /\
     is_Some (fetchQuotes part_000.getMockData part_000.symbols net !! "brent") /\
     is_Some (fetchQuotes part_000.getMockData part_000.symbols net !! "wti")) /\
  (forall b w : float,
     Binary64.falsy (Binary64.Num b) = false ->
     Binary64.falsy (Binary64.Num w) = false ->
     Binary64.brent_wti_spread (Binary64.Num b) (Binary64.Num w)
     = (b - w)%float) /\
  (forall (v : Binary64.value) (w : float),
     Binary64.falsy v = true -> Binary64.falsy (Binary64.Num w) = false ->
     Binary64.brent_wti_spread v (Binary64.Num w) = (0 - w)%float) /\
  (forall (b : float) (v : Binary64.value),
     Binary64.falsy (Binary64.Num b) = false -> Binary64.falsy v = true ->
     Binary64.brent_wti_spread (Binary64.Num b) v = (b - 0)%float) /\
  (forall u v : Binary64.value,
     Binary64.falsy u = true -> Binary64.falsy v = true ->
     Binary64.brent_wti_spread u v = (0 - 0)%float).
Proof.
  split; [reflexivity | split; [reflexivity |]].
  split; [| split; [| split; [| split]]].
  - intros b w Hb Hw. unfold brent_wti_spread. rewrite Hb, Hw.
    rewrite !or_else_zero_num. reflexivity.
  - intros Hb Hw. unfold brent_wti_spread.
    rewrite !or_else_zero_falsy by assumption. js_eval.
  - intros w Hb Hw. unfold brent_wti_spread.
    rewrite (or_else_zero_falsy _ Hb), Hw, or_else_zero_num.
    unfold vsub, lit, num. cbn [ToNumber nsub nadd nneg].
    f_equal. f_equal. ring.
  - intros b Hb Hw. unfold brent_wti_spread.
    rewrite (or_else_zero_falsy _ Hw), Hb, or_else_zero_num.
    unfold vsub, lit, num. cbn [ToNumber nsub nadd nneg].
    f_equal. f_equal. ring.
  - split.
    { intros net.
      split; [| split; [| split]]; eexists;
        [ apply (fetchQuotes_entry _ _ _ "brent" "BZ=F")
        | apply (fetchQuotes_entry _ _ _ "wti" "CL=F")
        | apply (fetchQuotes_entry _ _ _ "brent" "BZ=F")
        | apply (fetchQuotes_entry _ _ _ "wti" "CL=F") ];
        first [ exact server_js_symbols_NoDup | exact part_000_symbols_NoDup
              | apply (bool_decide_unpack _); vm_compute; reflexivity ]. }
    unfold Binary64.brent_wti_spread, Binary64.or_else, Binary64.falsy.
    split; [| split; [| split]].
    + intros b w Hb Hw. apply negb_false_iff in Hb, Hw.
      rewrite Hb, Hw. reflexivity.
    + intros v w Hv Hw. apply negb_false_iff in Hw. apply negb_true_iff in Hv.
      rewrite Hv, Hw. reflexivity.
    + intros b v Hb Hv. apply negb_false_iff in Hb. apply negb_true_iff in Hv.
      rewrite Hb, Hv. reflexivity.
    + intros u v Hu Hv. apply negb_true_iff in Hu, Hv.
      rewrite Hu, Hv. reflexivity.
Qed.

Lemma brent_wti_defaults_witness :
  let data := fetchQuotes server_js.getMockData server_js.symbols
                brent_without_price in
  falsy (opt_price (data !! "brent")) = true /\
  opt_price (data !! "wti") = num (Q2Qc 66.50) /\
  brent_wti_spread data = num (- Q2Qc 66.50).
Proof.
  cbv zeta.
  assert (Hb : falsy (opt_price
                 (fetchQuotes server_js.getMockData server_js.symbols
                    brent_without_price !! "brent")) = true) by reflexivity.
  assert (Hw : opt_price
                 (fetchQuotes server_js.getMockData server_js.symbols
                    brent_without_price !! "wti") = num (Q2Qc 66.50))
    by reflexivity.
  split; [exact Hb | split; [exact Hw |]].
  exact (proj1 (proj2 (proj2 (proj2 (proj2 (brent_wti_defaults _)))))
           _ Hb Hw).
Defined.

(** ** The snapshot of [fetchEnergyData] *)

(** X2.  [server.js]: for every behaviour of the upstream the snapshot
    carries all four quotes, each the quote fetched for its ticker or the
    fallback of its key when that fetch throws; the heating oil quote is the
    one of the key [ho]. *)
Theorem server_js_snapshot_quotes (net : Upstream) (iso : string) :
  let s := server_js.fetchEnergyData net iso in
  server_js.timestamp s = iso /\
  server_js.wti s
  = Some (fetched_or_fallback server_js.getMockData net "wti" "CL=F") /\
  server_js.brent s
  = Some (fetched_or_fallback server_js.getMockData net "brent" "BZ=F") /\
  server_js.rbob s
  = Some (fetched_or_fallback server_js.getMockData net "rbob" "RB=F") /\
  server_js.heatingOil s
  = Some (fetched_or_fallback server_js.getMockData net "ho" "HO=F").
Proof.
  cbv zeta. unfold server_js.fetchEnergyData.
  cbn [server_js.timestamp server_js.wti server_js.brent server_js.rbob
       server_js.heatingOil].
  split; [reflexivity |].
  repeat split; apply fetchQuotes_entry;
    try exact server_js_symbols_NoDup;
    unfold server_js.symbols; set_solver.
Qed.

Lemma withEstimates_lookup (data : gmap string Quote) :
  part_000.withEstimates data !! "wti" = data !! "wti" /\
  part_000.withEstimates data !! "brent" = data !! "brent" /\
  part_000.withEstimates data !! "rbob" = data !! "rbob" /\
  part_000.withEstimates data !! "fo05"
  = Some (estimateFuelOil05 (opt_price (data !! "brent"))) /\
  part_000.withEstimates data !! "fo380"
  = Some (estimateFuelOil380 (opt_price (data !! "brent"))) /\
  part_000.withEstimates data !! "gas92"
  = Some (estimateGas92 (opt_price (data !! "rbob"))).
Proof.
  unfold part_000.withEstimates.
  repeat split;
    repeat first [ rewrite lookup_insert_eq | rewrite lookup_insert_ne by done ];
    reflexivity.
Qed.

(** X3.  [part_000]: for every behaviour of the upstream the snapshot
    carries the three fetched-or-fallback quotes and the three estimates, and
    each estimate is the estimator applied to the price of the Brent (for
    the fuel oils) or RBOB (for the gasoline) quote of the same snapshot. *)
Theorem part_000_snapshot_quotes (net : Upstream) (iso : string) :
  let s := part_000.fetchEnergyData net iso in
  let brent := fetched_or_fallback part_000.getMockData net "brent" "BZ=F" in
  let rbob := fetched_or_fallback part_000.getMockData net "rbob" "RB=F" in
  part_000.timestamp s = iso /\
  part_000.wti s
  = Some (fetched_or_fallback part_000.getMockData net "wti" "CL=F") /\
  part_000.brent s = Some brent /\
  part_000.rbob s = Some rbob /\
  part_000.fo05 s = Some (estimateFuelOil05 (price brent)) /\
  part_000.fo380 s = Some (estimateFuelOil380 (price brent)) /\
  part_000.gas92 s = Some (estimateGas92 (price rbob)).
Proof.
  cbv zeta. unfold part_000.fetchEnergyData.
  cbn [part_000.timestamp part_000.wti part_000.brent part_000.rbob
       part_000.fo05 part_000.fo380 part_000.gas92].
  destruct (withEstimates_lookup
              (fetchQuotes part_000.getMockData part_000.symbols net))
    as (-> & -> & -> & -> & -> & ->).
  assert (Hw : fetchQuotes part_000.getMockData part_000.symbols net !! "wti"
               = Some (fetched_or_fallback part_000.getMockData net "wti" "CL=F")).
  { apply fetchQuotes_entry; [exact part_000_symbols_NoDup |].
    unfold part_000.symbols; set_solver. }
  assert (Hb : fetchQuotes part_000.getMockData part_000.symbols net !! "brent"
               = Some (fetched_or_fallback part_000.getMockData net "brent" "BZ=F")).
  { apply fetchQuotes_entry; [exact part_000_symbols_NoDup |].
    unfold part_000.symbols; set_solver. }
  assert (Hr : fetchQuotes part_000.getMockData part_000.symbols net !! "rbob"
               = Some (fetched_or_fallback part_000.getMockData net "rbob" "RB=F")).
  { apply fetchQuotes_entry; [exact part_000_symbols_NoDup |].
    unfold part_000.symbols; set_solver. }
  rewrite Hw, Hb, Hr. repeat split.
Qed.

Lemma all_thrown_fallback getMockData net symbols :
  (forall key symbol, (key, symbol) ∈ symbols ->
     exists message, fetchYahooPrice net symbol = Thrown message) ->
  fetchQuotes getMockData symbols net
  = fetchQuotes getMockData symbols (fun _ => Yahoo.Rejects "down").
Proof.
  intros H. apply fetchQuotes_ext. intros key symbol Hin.
  destruct (H key symbol Hin) as [message E].
  unfold fetched_or_fallback. rewrite E. reflexivity.
Qed.

(** X4.  [server.js]: when the fetch of every registered ticker throws, the
    snapshot is the one of an upstream that rejects everything, whatever the
    upstream did: the four fallback quotes, a Brent-WTI spread of 5.30, a
    3-2-1 crack of 33.04 and the calendar estimates 0.532, 2.3275, 0.0228
    and 0.0204 taken from the fallback prices.  These figures are exact in
    rational arithmetic; the doubles the server computes from the fallback
    prices are 5.2999999999999972, 33.040000000000006, 0.532, 2.3275,
    0.022799999999999997 and 0.020399999999999998, each less than [1e-12]
    from its figure. *)
Theorem server_js_all_fallback (net : Upstream) (iso : string) :
  (forall key symbol, (key, symbol) ∈ server_js.symbols ->
     exists message, fetchYahooPrice net symbol = Thrown message) ->
  let s := server_js.fetchEnergyData net iso in
  let sp := server_js.snapshot_spreads s in
  (server_js.wti s = Some (server_js.getMockData "wti") /\
   server_js.brent s = Some (server_js.getMockData "brent") /\
   server_js.rbob s = Some (server_js.getMockData "rbob") /\
   server_js.heatingOil s = Some (server_js.getMockData "ho")) /\
  server_js.brent_wti sp = lit 5.30 /\
  server_js.crack_321 sp = lit 33.04 /\
  server_js.wti_m1m2 sp = lit 0.532 /\
  server_js.wti_m1m6 sp = lit 2.3275 /\
  server_js.rbob_m1m2 sp = lit 0.0228 /\
  server_js.ho_m1m2 sp = lit 0.0204 /\
  s = server_js.fetchEnergyData (fun _ => Yahoo.Rejects "down") iso /\
  (let brent_wti := Binary64.brent_wti_spread (Binary64.Num 71.80)
                      (Binary64.Num 66.50) in
   let crack_321 := Binary64.calculateCrack321 (Binary64.Num 66.50)
                      (Binary64.Num 2.28) (Binary64.Num 2.55) in
   let wti_m1m2 := Binary64.calendar_estimate (Binary64.Num 66.50) 0.008 0.50 in
   let wti_m1m6 := Binary64.calendar_estimate (Binary64.Num 66.50) 0.035 2.30 in
   let rbob_m1m2 := Binary64.calendar_estimate (Binary64.Num 2.28) 0.01 0.15 in
   let ho_m1m2 := Binary64.calendar_estimate (Binary64.Num 2.55) 0.008 0.20 in
   (brent_wti = 5.2999999999999972%float /\
    crack_321 = 33.040000000000006%float /\
    wti_m1m2 = 0.532%float /\
    wti_m1m6 = 2.3275%float /\
    rbob_m1m2 = 0.022799999999999997%float /\
    ho_m1m2 = 0.020399999999999998%float) /\
   (Binary64.close brent_wti 5.30 = true /\
    Binary64.close crack_321 33.04 = true /\
    Binary64.close wti_m1m2 0.532 = true /\
    Binary64.close wti_m1m6 2.3275 = true /\
    Binary64.close rbob_m1m2 0.0228 = true /\
    Binary64.close ho_m1m2 0.0204 = true)).
Proof.
  intros H. cbv zeta. unfold server_js.fetchEnergyData.
  rewrite (all_thrown_fallback _ _ _ H).
  split; [repeat split |].
  do 6 (split; [js_eval |]).
  split; [reflexivity |].
  split; repeat split; vm_compute; reflexivity.
Qed.

Lemma server_js_all_fallback_witness :
  let s := server_js.fetchEnergyData (fun _ => Yahoo.Rejects "timeout") "t" in
  server_js.crack_321 (server_js.snapshot_spreads s) = lit 33.04.
Proof.
  cbv zeta.
  refine (proj1 (proj2 (proj2 (server_js_all_fallback
                                 (fun _ => Yahoo.Rejects "timeout") "t" _)))).
  intros key symbol _. exists "timeout". reflexivity.
Defined.

(** X5.  [part_000]: when the fetch of every registered ticker throws, the
    snapshot is the one of an upstream that rejects everything: the three
    fallback quotes, estimates priced 75.80, 61.80 and 2.26, a Brent-WTI
    spread of 5.30 and the cracks 23.12 (gasoline), 4 (0.5% fuel oil) and
    -10 (380 fuel oil).  These figures are exact in rational arithmetic; on
    the doubles of the server the estimates are priced the same, the fuel
    oil cracks are 4 and -10, and the spread and the gasoline crack are
    5.2999999999999972 and 23.11999999999999, less than [1e-12] from their
    figures. *)
Theorem part_000_all_fallback (net : Upstream) (iso : string) :
  (forall key symbol, (key, symbol) ∈ part_000.symbols ->
     exists message, fetchYahooPrice net symbol = Thrown message) ->
  let s := part_000.fetchEnergyData net iso in
  let sp := part_000.snapshot_spreads s in
  (part_000.wti s = Some (part_000.getMockData "wti") /\
   part_000.brent s = Some (part_000.getMockData "brent") /\
   part_000.rbob s = Some (part_000.getMockData "rbob")) /\
  (opt_price (part_000.fo05 s) = lit 75.80 /\
   opt_price (part_000.fo380 s) = lit 61.80 /\
   opt_price (part_000.gas92 s) = lit 2.26) /\
  part_000.brent_wti sp = lit 5.30 /\
  part_000.crack_92 sp = lit 23.12 /\
  part_000.crack_fo05 sp = lit 4 /\
  part_000.crack_fo380 sp = lit (-10) /\
  s = part_000.fetchEnergyData (fun _ => Yahoo.Rejects "down") iso /\
  (let brent := Binary64.Num 71.80 in
   let rbob := Binary64.Num 2.28 in
   (Binary64.price (Binary64.estimateFuelOil05 brent) = 75.80%float /\
    Binary64.price (Binary64.estimateFuelOil380 brent) = 61.80%float /\
    Binary64.price (Binary64.estimateGas92 rbob) = 2.26%float) /\
   (Binary64.brent_wti_spread brent (Binary64.Num 66.50)
    = 5.2999999999999972%float /\
    Binary64.crack_92 brent rbob = 23.11999999999999%float /\
    Binary64.crack_fo05 brent = 4%float /\
    Binary64.crack_fo380 brent = (-10)%float) /\
   (Binary64.close (Binary64.brent_wti_spread brent (Binary64.Num 66.50)) 5.30
    = true /\
    Binary64.close (Binary64.crack_92 brent rbob) 23.12 = true)).
Proof.
  intros H. cbv zeta. unfold part_000.fetchEnergyData.
  rewrite (all_thrown_fallback _ _ _ H).
  split; [repeat split |].
  split; [repeat split; js_eval |].
  do 4 (split; [js_eval |]).
  split; [reflexivity |].
  split; [| split]; repeat split; vm_compute; reflexivity.
Qed.

Lemma part_000_all_fallback_witness :
  let s := part_000.fetchEnergyData (fun _ => Yahoo.Rejects "timeout") "t" in
  part_000.crack_92 (part_000.snapshot_spreads s) = lit 23.12.
Proof.
  cbv zeta.
  refine (proj1 (proj2 (proj2 (proj2 (part_000_all_fallback
                                        (fun _ => Yahoo.Rejects "timeout") "t" _))))).
  intros key symbol _. exists "timeout". reflexivity.
Defined.

(** ** The quote fetcher *)

(** X6.  [fetchYahooPrice] throws in three cases only: the request is
    rejected, the body has no [chart.result[0]], or that result has no
    [meta].  A missing or empty close series never makes it throw. *)
Theorem fetchYahooPrice_throws (net : Upstream) (symbol : string) :
  (exists message, fetchYahooPrice net symbol = Thrown message) <->
  (exists message, net symbol = Yahoo.Rejects message) \/
  net symbol = Yahoo.Resolves None \/
  (exists result, net symbol = Yahoo.Resolves (Some result) /\
                  Yahoo.meta result = None).
Proof.
  unfold fetchYahooPrice.
  destruct (net symbol) as [message | [result |]].
  - split; [intros _; left | intros _]; eexists; reflexivity.
  - destruct (Yahoo.meta result) as [quote |] eqn:M.
    + split.
      * intros [message H]. discriminate H.
      * intros [[message H] | [H | (r & H & Hm)]]; try discriminate H.
        injection H as <-. congruence.
    + split; [intros _; right; right; exists result; auto |].
      intros _. eexists. reflexivity.
  - split; [intros _; right; left; reflexivity | intros _; eexists; reflexivity].
Qed.

Lemma nth_length_last (l : list value) (x : value) :
  nth (length l) (x :: l) Undefined = List.last (x :: l) Undefined.
Proof.
  revert x. induction l as [| y l IH]; intros x; [reflexivity |].
  change (nth (length l) (y :: l) Undefined = List.last (y :: l) Undefined).
  apply IH.
Qed.

Lemma nth_length_before_last (l : list value) (x y : value) :
  nth (length l) (x :: y :: l) Undefined
  = List.last (List.removelast (x :: y :: l)) Undefined.
Proof.
  revert x y. induction l as [| z l IH]; intros x y; [reflexivity |].
  change (nth (length l) (y :: z :: l) Undefined
          = List.last (List.removelast (y :: z :: l)) Undefined).
  apply IH.
Qed.

Lemma index_last (l : list value) :
  index l (Z.of_nat (length l) - 1) = List.last l Undefined.
Proof.
  unfold index. destruct l as [| x l]; [reflexivity |].
  replace (Z.of_nat (length (x :: l)) - 1)%Z with (Z.of_nat (length l))
    by (cbn [length]; lia).
  destruct (Z.ltb_spec (Z.of_nat (length l)) 0) as [H | _]; [lia |].
  rewrite Nat2Z.id. apply nth_length_last.
Qed.

Lemma index_before_last (l : list value) :
  index l (Z.of_nat (length l) - 2) = List.last (List.removelast l) Undefined.
Proof.
  unfold index. destruct l as [| x l]; [reflexivity |].
  destruct l as [| y l]; [reflexivity |].
  replace (Z.of_nat (length (x :: y :: l)) - 2)%Z with (Z.of_nat (length l))
    by (cbn [length]; lia).
  destruct (Z.ltb_spec (Z.of_nat (length l)) 0) as [H | _]; [lia |].
  rewrite Nat2Z.id. apply nth_length_before_last.
Qed.

Lemma falsy_or_zero (v : value) :
  falsy v || strict_eq_zero v = negb (ToBoolean v).
Proof.
  destruct v as [| | [q | | s]]; try reflexivity.
  unfold falsy, strict_eq_zero, ToBoolean.
  destruct (bool_decide (q = 0)); reflexivity.
Qed.

(** X7.  A chart with a [meta] always gives a quote.  Its price is
    [regularMarketPrice] when that is truthy and else the last entry of the
    close series ([undefined] when the series is missing or empty); its
    previous close is [meta.previousClose] when truthy and else the entry
    before the last ([undefined] when the series has fewer than two
    entries). *)
Theorem fetchYahooPrice_sources (net : Upstream) (symbol : string)
    (result : Yahoo.ChartResult) (meta : Yahoo.Meta) :
  net symbol = Yahoo.Resolves (Some result) ->
  Yahoo.meta result = Some meta ->
  let closes := default [] (Yahoo.close result) in
  exists q, fetchYahooPrice net symbol = Returned q /\
    price q = (if ToBoolean (Yahoo.regularMarketPrice meta)
               then Yahoo.regularMarketPrice meta
               else List.last closes Undefined) /\
    previousClose q = (if ToBoolean (Yahoo.previousClose meta)
                       then Yahoo.previousClose meta
                       else List.last (List.removelast closes) Undefined).
Proof.
  intros Hnet Hmeta. cbv zeta. unfold fetchYahooPrice.
  rewrite Hnet, Hmeta. eexists. split; [reflexivity |].
  cbn [price previousClose].
  rewrite falsy_or_zero, index_last, index_before_last.
  unfold or_else.
  destruct (ToBoolean (Yahoo.regularMarketPrice meta)),
           (ToBoolean (Yahoo.previousClose meta)); split; reflexivity.
Qed.

Lemma fetchYahooPrice_sources_witness :
  let net := constant_upstream Undefined (lit 0) [lit 70; lit 71; lit 72] in
  exists q, fetchYahooPrice net "CL=F" = Returned q /\
    price q = lit 72 /\ previousClose q = lit 71.
Proof.
  cbv zeta.
  destruct (fetchYahooPrice_sources
              (constant_upstream Undefined (lit 0) [lit 70; lit 71; lit 72])
              "CL=F" _ _ eq_refl eq_refl) as (q & E & Hp & Hc).
  exists q. split; [exact E | split; [exact Hp | exact Hc]].
Defined.

(** X8.  A chart that has a [meta] but no usable price (no truthy
    [regularMarketPrice], no close series or an empty one) is not an error:
    the quote returned has an [undefined] price and [NaN] for [change] and
    [changePercent], and the loop of [fetchEnergyData] keeps it instead of
    the fallback. *)
Theorem fetchYahooPrice_no_price (getMockData : string -> Quote)
    (net : Upstream) (key symbol : string)
    (result : Yahoo.ChartResult) (meta : Yahoo.Meta) :
  net symbol = Yahoo.Resolves (Some result) ->
  Yahoo.meta result = Some meta ->
  ToBoolean (Yahoo.regularMarketPrice meta) = false ->
  default [] (Yahoo.close result) = [] ->
  exists q, fetchYahooPrice net symbol = Returned q /\
    fetched_or_fallback getMockData net key symbol = q /\
    price q = Undefined /\
    change q = Num NaN /\
    changePercent q = Num NaN.
Proof.
  intros Hnet Hmeta Hrmp Hcloses.
  unfold fetched_or_fallback, fetchYahooPrice.
  rewrite Hnet, Hmeta, Hcloses. eexists. split; [reflexivity |].
  split; [reflexivity |]. cbn [price change changePercent].
  rewrite falsy_or_zero, Hrmp. cbn [negb].
  split; [reflexivity |]. split; reflexivity.
Qed.

Lemma fetchYahooPrice_no_price_witness :
  let net := constant_upstream Undefined Undefined [] in
  exists q, fetchYahooPrice net "BZ=F" = Returned q /\
    fetched_or_fallback server_js.getMockData net "brent" "BZ=F" = q /\
    price q = Undefined.
Proof.
  cbv zeta.
  destruct (fetchYahooPrice_no_price server_js.getMockData
              (constant_upstream Undefined Undefined []) "brent" "BZ=F"
              _ _ eq_refl eq_refl eq_refl eq_refl) as (q & E & F & Hp & _).
  exists q. split; [exact E | split; [exact F | exact Hp]].
Defined.

(** ** Runs of the cached endpoint *)

Section EndpointRuns.

Context {Snapshot : Type}.
Implicit Types (c : Cache Snapshot) (refresh : outcome Snapshot).
Implicit Types (data : Snapshot) (now : Z).
Implicit Types (requests : list (Z * outcome Snapshot)).

Local Open Scope Z_scope.

(** X9.  While the cached snapshot is younger than the window, any number
    of requests is answered with it, whatever the upstream would do: not one
    call of [fetchEnergyData] is made and the cache stays as it is. *)
Theorem fresh_cache_absorbs_requests requests c data :
  cachedData c = Some data ->
  Forall (fun r => r.1 - lastFetch c < CACHE_DURATION) requests ->
  serve requests c
  = (map (fun _ => {| response := Json200 data; fetches := 0;
                      produced := None |}) requests, c) /\
  total_fetches (serve requests c).1 = 0%nat.
Proof.
  intros Hc Hall.
  assert (E : serve requests c
              = (map (fun _ => {| response := Json200 data; fetches := 0;
                                  produced := None |}) requests, c)).
  { induction Hall as [| [now refresh] rest Hage _ IH]; [reflexivity |].
    cbn [serve]. rewrite (handler_hit c data now refresh Hc Hage), IH.
    reflexivity. }
  split; [exact E |]. rewrite E. cbn [fst].
  clear. induction requests as [| r rest IH]; [reflexivity | exact IH].
Qed.

(** X10.  With a stale snapshot and an upstream that keeps failing, every
    request is answered with the stale snapshot and every one of them calls
    [fetchEnergyData]: a failure does not restart the window, so [n] requests
    make [n] calls. *)
Theorem stale_cache_retries_each_request requests c data :
  cachedData c = Some data ->
  Forall (fun r => CACHE_DURATION <= r.1 - lastFetch c /\
                   exists message, r.2 = Thrown message) requests ->
  serve requests c
  = (map (fun _ => {| response := Json200 data; fetches := 1;
                      produced := None |}) requests, c) /\
  total_fetches (serve requests c).1 = length requests.
Proof.
  intros Hc Hall.
  assert (E : serve requests c
              = (map (fun _ => {| response := Json200 data; fetches := 1;
                                  produced := None |}) requests, c)).
  { induction Hall as [| [now refresh] rest [Hage [message Hm]] _ IH];
      [reflexivity |].
    cbn [serve]. cbn [fst snd] in Hage, Hm. subst refresh.
    rewrite handler_failure, Hc, IH.
    apply Z.ltb_ge in Hage. rewrite Hage, andb_false_r. reflexivity. }
  split; [exact E |]. rewrite E. cbn [fst].
  clear. induction requests as [| r rest IH]; [reflexivity |].
  cbn [map total_fetches foldr length fetches] in *.
  unfold total_fetches in IH. rewrite IH. reflexivity.
Qed.

Lemma handler_keeps_snapshot c now refresh :
  is_Some (cachedData c) ->
  is_Some (cachedData (handler now refresh c).2) /\
  exists data, response (handler now refresh c).1 = Json200 data.
Proof.
  intros [data Hc]. unfold handler. rewrite Hc.
  destruct (now - lastFetch c <? CACHE_DURATION), refresh; cbn; eauto.
Qed.

(** X11.  The cache is never emptied: once it holds a snapshot it holds one
    after every later request, and every later request is answered 200, also
    when all the refreshes fail. *)
Theorem filled_cache_never_fails requests c :
  is_Some (cachedData c) ->
  is_Some (cachedData (serve requests c).2) /\
  Forall (fun s => exists data, response s = Json200 data) (serve requests c).1.
Proof.
  revert c. induction requests as [| [now refresh] rest IH]; intros c Hc.
  - split; [exact Hc | constructor].
  - cbn [serve].
    destruct (handler_keeps_snapshot c now refresh Hc) as [Hc1 Hr].
    destruct (handler now refresh c) as [s c1]. cbn [fst snd] in *.
    destruct (IH c1 Hc1) as [Hc2 Hall].
    destruct (serve rest c1) as [ss c2]. cbn [fst snd] in *.
    split; [exact Hc2 | constructor; assumption].
Qed.


End EndpointRuns.

(** ** Instances for the runs *)

Lemma fresh_cache_absorbs_requests_witness :
  let c : Cache string := {| cachedData := Some "snapshot"; lastFetch := 1000 |} in
  total_fetches
    (serve [(2000%Z, Thrown "down"); (3000%Z, Returned "new");
            (500%Z, Returned "newer")] c).1 = 0%nat.
Proof.
  cbv zeta.
  refine (proj2 (fresh_cache_absorbs_requests _
                   {| cachedData := Some "snapshot"; lastFetch := 1000 |}
                   "snapshot" eq_refl _)).
  repeat constructor.
Defined.

Lemma stale_cache_retries_each_request_witness :
  let c : Cache string := {| cachedData := Some "snapshot"; lastFetch := 1000 |} in
  total_fetches
    (serve [(400000%Z, Thrown "down"); (400001%Z, Thrown "down")] c).1 = 2%nat.
Proof.
  cbv zeta.
  refine (proj2 (stale_cache_retries_each_request _
                   {| cachedData := Some "snapshot"; lastFetch := 1000 |}
                   "snapshot" eq_refl _)).
  repeat constructor; try discriminate; eexists; reflexivity.
Defined.

Lemma filled_cache_never_fails_witness :
  let c : Cache string := {| cachedData := Some "snapshot"; lastFetch := 1000 |} in
  Forall (fun s => exists data, response s = Json200 data)
    (serve [(400000%Z, Thrown "down"); (800000%Z, Thrown "down")] c).1.
Proof.
  cbv zeta.
  refine (proj2 (filled_cache_never_fails _
                   {| cachedData := Some "snapshot"; lastFetch := 1000 |} _)).
  eexists. reflexivity.
Defined.


(** ** Cracks and spreads of a snapshot *)

Lemma calculateCrack_present (c p : Qc) :
  c <> 0 -> p <> 0 ->
  calculateCrack (num c) (num p)
  = if bool_decide (p < Q2Qc 10) then num (p * Q2Qc 42 - c) else num (p - c).
Proof.
  intros Hc Hp. unfold calculateCrack.
  rewrite !nonzero_truthy by assumption. cbn [orb].
  rewrite productBarrel_num. destruct (bool_decide (p < Q2Qc 10)); reflexivity.
Qed.

Lemma estimate_prices (q : Qc) :
  q <> 0 ->
  price (estimateFuelOil05 (num q)) = num (q + Q2Qc 4) /\
  price (estimateFuelOil380 (num q)) = num (q - Q2Qc 10) /\
  price (estimateGas92 (num q)) = num (q + Q2Qc (-0.02)).
Proof.
  intros Hq. unfold estimateFuelOil05, estimateFuelOil380, estimateGas92.
  rewrite !nonzero_truthy by exact Hq. cbn [price]. repeat split.
Qed.

Lemma Qc_above_positive (a b : Qc) : 0 < a -> a <= b -> b <> 0.
Proof. intros Ha Hab. apply positive_nonzero. eapply Qclt_le_trans; eauto. Qed.

Lemma part_000_cracks (data : gmap string Quote) :
  let sp := part_000.spreads (part_000.withEstimates data) in
  let brent := opt_price (data !! "brent") in
  part_000.crack_fo05 sp
  = calculateCrack brent (price (estimateFuelOil05 brent)) /\
  part_000.crack_fo380 sp
  = calculateCrack brent (price (estimateFuelOil380 brent)) /\
  part_000.crack_92 sp
  = calculateCrack brent
      (price (estimateGas92 (opt_price (data !! "rbob")))).
Proof.
  cbv zeta. unfold part_000.spreads.
  cbn [part_000.crack_fo05 part_000.crack_fo380 part_000.crack_92].
  destruct (withEstimates_lookup data) as (_ & -> & _ & -> & -> & ->).
  repeat split.
Qed.

(** X14.  [part_000]: the fuel oil cracks do not move with the market.
    Whatever Brent quote was fetched, from a price of 6 on the 0.5% fuel oil
    crack is 4, and from a price of 20 on the 380 fuel oil crack is -10, the
    offsets of the estimators, in exact arithmetic.  On the doubles of the
    server the cracks are the expressions [(b + 4) - b] and [(b - 10) - b]
    as the code rounds them (whenever the estimate is not below 10): 4 and
    -10 for Brent at 71.80, 4.0000000000000071 for Brent at 62.37. *)
Theorem fuel_oil_cracks_constant (data : gmap string Quote) (qb : Quote)
    (b : Qc) :
  data !! "brent" = Some qb -> price qb = num b ->
  let sp := part_000.spreads (part_000.withEstimates data) in
  (Q2Qc 6 <= b -> part_000.crack_fo05 sp = lit 4) /\
  (Q2Qc 20 <= b -> part_000.crack_fo380 sp = lit (-10)) /\
  (forall x : float,
     Binary64.falsy (Binary64.Num x) = false ->
     Binary64.falsy (Binary64.Num (x + 4)) = false ->
     PrimFloat.ltb (x + 4) 10 = false ->
     Binary64.crack_fo05 (Binary64.Num x) = (x + 4 - x)%float) /\
  (forall x : float,
     Binary64.falsy (Binary64.Num x) = false ->
     Binary64.falsy (Binary64.Num (x - 10)) = false ->
     PrimFloat.ltb (x - 10) 10 = false ->
     Binary64.crack_fo380 (Binary64.Num x) = (x - 10 - x)%float) /\
  Binary64.crack_fo05 (Binary64.Num 71.80) = 4%float /\
  Binary64.crack_fo380 (Binary64.Num 71.80) = (-10)%float /\
  Binary64.crack_fo05 (Binary64.Num 62.37) = 4.0000000000000071%float /\
  Binary64.close (Binary64.crack_fo05 (Binary64.Num 62.37)) 4 = true.
Proof.
  intros Hd Hb. cbv zeta.
  split; [| split];
    [| | split; [| split; [| repeat split; vm_compute; reflexivity]]].
  3: { intros x Hx Hp Hlt.
       unfold Binary64.crack_fo05, Binary64.calculateCrack,
         Binary64.productBarrel, Binary64.estimateFuelOil05.
       rewrite Hx. cbn [Binary64.price Binary64.ToNumber orb].
       rewrite Hp, Hlt. reflexivity. }
  3: { intros x Hx Hp Hlt.
       unfold Binary64.crack_fo380, Binary64.calculateCrack,
         Binary64.productBarrel, Binary64.estimateFuelOil380.
       rewrite Hx. cbn [Binary64.price Binary64.ToNumber orb].
       rewrite Hp, Hlt. reflexivity. }
  all: destruct (part_000_cracks data) as (E05 & E380 & _).
  all: rewrite ?E05, ?E380, Hd; cbn [opt_price]; rewrite Hb; intros Hge.
  - assert (Hnz : b <> 0) by (apply (Qc_above_positive (Q2Qc 6)); easy).
    destruct (estimate_prices b Hnz) as (-> & _ & _).
    assert (H10 : Q2Qc 10 <= b + Q2Qc 4).
    { replace (Q2Qc 10) with (Q2Qc 6 + Q2Qc 4) by (apply Qc_is_canon; reflexivity).
      apply Qcplus_le_mono_r, Hge. }
    rewrite calculateCrack_present;
      [| exact Hnz | apply (Qc_above_positive (Q2Qc 10)); easy].
    rewrite bool_decide_eq_false_2 by (apply Qcle_not_lt, H10).
    unfold lit. f_equal. f_equal. ring.
  - assert (Hnz : b <> 0) by (apply (Qc_above_positive (Q2Qc 20)); easy).
    destruct (estimate_prices b Hnz) as (_ & -> & _).
    assert (H10 : Q2Qc 10 <= b - Q2Qc 10).
    { replace (Q2Qc 10) with (Q2Qc 20 - Q2Qc 10) at 1
        by (apply Qc_is_canon; reflexivity).
      apply Qcplus_le_mono_r, Hge. }
    rewrite calculateCrack_present;
      [| exact Hnz | apply (Qc_above_positive (Q2Qc 10)); easy].
    rewrite bool_decide_eq_false_2 by (apply Qcle_not_lt, H10).
    assert (E : Q2Qc (-10) = - Q2Qc 10) by (apply Qc_is_canon; reflexivity).
    unfold lit. rewrite E. f_equal. f_equal. ring.
Qed.

Lemma fuel_oil_cracks_constant_witness :
  let data : gmap string Quote := {[ "brent" := part_000.getMockData "brent" ]} in
  part_000.crack_fo380 (part_000.spreads (part_000.withEstimates data))
  = lit (-10).
Proof.
  cbv zeta.
  refine (proj1 (proj2 (fuel_oil_cracks_constant
                          {[ "brent" := part_000.getMockData "brent" ]}
                          (part_000.getMockData "brent") (Q2Qc 71.80)
                          eq_refl eq_refl)) _).
  discriminate.
Defined.

(** X15.  [part_000]: with Brent strictly between 10 and 20 the 380 fuel oil
    estimate falls below 10, [calculateCrack] takes it for a price per
    gallon, and the crack is [(brent - 10) * 42 - brent] instead of -10 (195
    with Brent at 15). *)
Theorem fuel_oil_380_crack_below_threshold (data : gmap string Quote)
    (qb : Quote) (b : Qc) :
  data !! "brent" = Some qb -> price qb = num b ->
  Q2Qc 10 < b -> b < Q2Qc 20 ->
  part_000.crack_fo380 (part_000.spreads (part_000.withEstimates data))
  = num ((b - Q2Qc 10) * Q2Qc 42 - b).
Proof.
  intros Hd Hb Hlo Hhi.
  destruct (part_000_cracks data) as (_ & -> & _).
  rewrite Hd. cbn [opt_price]. rewrite Hb.
  assert (Hnz : b <> 0).
  { apply positive_nonzero. eapply Qclt_trans; [| exact Hlo]. reflexivity. }
  destruct (estimate_prices b Hnz) as (_ & -> & _).
  assert (Hpos : 0 < b - Q2Qc 10).
  { replace 0 with (Q2Qc 10 - Q2Qc 10) by (apply Qc_is_canon; reflexivity).
    apply Qcplus_lt_mono_r, Hlo. }
  assert (H10 : b - Q2Qc 10 < Q2Qc 10).
  { replace (Q2Qc 10) with (Q2Qc 20 - Q2Qc 10) at 2
      by (apply Qc_is_canon; reflexivity).
    apply Qcplus_lt_mono_r, Hhi. }
  rewrite calculateCrack_present; [| exact Hnz | apply positive_nonzero, Hpos].
  rewrite bool_decide_eq_true_2 by exact H10. reflexivity.
Qed.

Lemma fuel_oil_380_crack_below_threshold_witness :
  let data : gmap string Quote :=
    {[ "brent" := mkQuote (lit 15) (lit 0) (lit 0) (lit 15) ]} in
  part_000.crack_fo380 (part_000.spreads (part_000.withEstimates data))
  = num ((Q2Qc 15 - Q2Qc 10) * Q2Qc 42 - Q2Qc 15).
Proof.
  cbv zeta.
  refine (fuel_oil_380_crack_below_threshold
            {[ "brent" := mkQuote (lit 15) (lit 0) (lit 0) (lit 15) ]}
            (mkQuote (lit 15) (lit 0) (lit 0) (lit 15)) (Q2Qc 15)
            eq_refl eq_refl _ _); reflexivity.
Defined.

(** X16.  [part_000]: without a usable Brent price (quote absent, or price
    absent, 0 or [NaN]) the three cracks are 0, although the three
    estimates are still produced, from the default benchmark, with prices
    75.80 and 61.80 for the fuel oils.  [server.js]: the 3-2-1 crack is 0 as
    soon as one of the WTI, RBOB and heating oil prices is unusable. *)
Theorem cracks_zero_without_inputs (data : gmap string Quote) :
  (falsy (opt_price (data !! "brent")) = true ->
   let d := part_000.withEstimates data in
   let sp := part_000.spreads d in
   part_000.crack_92 sp = lit 0 /\
   part_000.crack_fo05 sp = lit 0 /\
   part_000.crack_fo380 sp = lit 0 /\
   opt_price (d !! "fo05") = lit 75.80 /\
   opt_price (d !! "fo380") = lit 61.80) /\
  (falsy (opt_price (data !! "wti")) = true \/
   falsy (opt_price (data !! "rbob")) = true \/
   falsy (opt_price (data !! "ho")) = true ->
   server_js.crack_321 (server_js.spreads data) = lit 0).
Proof.
  split.
  - intros Hb. cbv zeta.
    destruct (part_000_cracks data) as (-> & -> & ->).
    destruct (withEstimates_lookup data) as (_ & _ & _ & -> & -> & _).
    unfold calculateCrack. rewrite Hb. cbn [orb opt_price].
    unfold estimateFuelOil05, estimateFuelOil380. rewrite Hb. cbn [price].
    repeat split; js_eval.
  - intros H. unfold server_js.spreads. cbn [server_js.crack_321].
    unfold calculateCrack321.
    destruct H as [-> | [-> | ->]]; rewrite ?orb_true_r; reflexivity.
Qed.

Lemma cracks_zero_without_inputs_witness :
  part_000.crack_fo05
    (part_000.spreads (part_000.withEstimates (∅ : gmap string Quote)))
  = lit 0.
Proof.
  exact (proj1 (proj2 (proj1 (cracks_zero_without_inputs ∅) eq_refl))).
Defined.

(** X17.  [part_000]: the gasoline crack is taken on the estimate, not on
    the RBOB quote: with non-zero Brent and RBOB prices [b] and [r], [r]
    below 10 and other than 0.02, it is [(r - 0.02) * 42 - b] in exact
    arithmetic.  On the doubles of the server it is that expression as the
    code rounds it, whenever the estimate is non-zero and below 10:
    23.11999999999999 at the fallback prices, less than [1e-12] from
    23.12. *)
Theorem gasoline_crack_formula (data : gmap string Quote) (qb qr : Quote)
    (b r : Qc) :
  data !! "brent" = Some qb -> price qb = num b -> b <> 0 ->
  data !! "rbob" = Some qr -> price qr = num r -> r <> 0 ->
  r < Q2Qc 10 -> r <> Q2Qc 0.02 ->
  part_000.crack_92 (part_000.spreads (part_000.withEstimates data))
  = num ((r + Q2Qc (-0.02)) * Q2Qc 42 - b) /\
  (forall x y : float,
     Binary64.falsy (Binary64.Num x) = false ->
     Binary64.falsy (Binary64.Num y) = false ->
     Binary64.falsy (Binary64.Num (y + -0.02)) = false ->
     PrimFloat.ltb (y + -0.02) 10 = true ->
     Binary64.crack_92 (Binary64.Num x) (Binary64.Num y)
     = ((y + -0.02) * 42 - x)%float) /\
  Binary64.crack_92 (Binary64.Num 71.80) (Binary64.Num 2.28)
  = 23.11999999999999%float /\
  Binary64.close (Binary64.crack_92 (Binary64.Num 71.80) (Binary64.Num 2.28))
    23.12 = true.
Proof.
  intros Hdb Hb Hbz Hdr Hr Hrz Hlt Hne.
  split; [| split; [| split; vm_compute; reflexivity]].
  2: { intros x y Hx Hy Hp H10.
       unfold Binary64.crack_92, Binary64.calculateCrack,
         Binary64.productBarrel, Binary64.estimateGas92.
       rewrite Hx, Hy. cbn [Binary64.price Binary64.ToNumber orb].
       rewrite Hp, H10. reflexivity. }
  destruct (part_000_cracks data) as (_ & _ & ->).
  rewrite Hdb, Hdr. cbn [opt_price]. rewrite Hb, Hr.
  destruct (estimate_prices r Hrz) as (_ & _ & ->).
  assert (Hnz : r + Q2Qc (-0.02) <> 0).
  { intros E. apply Hne.
    transitivity (r + Q2Qc (-0.02) - Q2Qc (-0.02)); [ring |].
    rewrite E. apply Qc_is_canon. reflexivity. }
  assert (H10 : r + Q2Qc (-0.02) < Q2Qc 10).
  { eapply Qclt_trans; [| exact Hlt].
    replace r with (r + 0) at 2 by ring.
    apply Qcplus_lt_mono_l. reflexivity. }
  rewrite calculateCrack_present by assumption.
  rewrite bool_decide_eq_true_2 by exact H10. reflexivity.
Qed.

Lemma gasoline_crack_formula_witness :
  let data : gmap string Quote :=
    {[ "brent" := part_000.getMockData "brent";
       "rbob" := part_000.getMockData "rbob" ]} in
  part_000.crack_92 (part_000.spreads (part_000.withEstimates data))
  = num ((Q2Qc 2.28 + Q2Qc (-0.02)) * Q2Qc 42 - Q2Qc 71.80).
Proof.
  cbv zeta.
  refine (proj1 (gasoline_crack_formula
            {[ "brent" := part_000.getMockData "brent";
               "rbob" := part_000.getMockData "rbob" ]}
            (part_000.getMockData "brent") (part_000.getMockData "rbob")
            (Q2Qc 71.80) (Q2Qc 2.28)
            eq_refl eq_refl _ eq_refl eq_refl _ _ _));
    first [discriminate | reflexivity].
Defined.

(** ** The fallback table *)

Lemma fallback_lookup_others (t : gmap string Quote) (commodity : string) :
  t !! commodity = None ->
  default (mkQuote (lit 0) (lit 0) (lit 0) (lit 0)) (t !! commodity)
  = mkQuote (lit 0) (lit 0) (lit 0) (lit 0).
Proof. intros ->. reflexivity. Qed.

(** X19.  Every registered symbol has a fallback with a usable (non-zero,
    finite) price, so a failed fetch never leaves a registered key without a
    price; any other key that is not a property name inherited from
    [Object.prototype] gets the all-zero quote, whose price counts as
    absent.  In [part_000] heating oil is such a key. *)
Theorem fallback_covers_registry :
  (forall key symbol, (key, symbol) ∈ server_js.symbols ->
     ToBoolean (price (server_js.getMockData key)) = true /\
     is_finite (price (server_js.getMockData key)) = true) /\
  (forall key symbol, (key, symbol) ∈ part_000.symbols ->
     ToBoolean (price (part_000.getMockData key)) = true /\
     is_finite (price (part_000.getMockData key)) = true) /\
  (forall commodity,
     commodity ∉ server_js.symbols.*1 -> commodity ∉ object_prototype_keys ->
     server_js.getMockData commodity = mkQuote (lit 0) (lit 0) (lit 0) (lit 0)) /\
  (forall commodity,
     commodity ∉ part_000.symbols.*1 -> commodity ∉ object_prototype_keys ->
     part_000.getMockData commodity = mkQuote (lit 0) (lit 0) (lit 0) (lit 0)) /\
  ("ho" ∉ object_prototype_keys) /\
  falsy (price (part_000.getMockData "ho")) = true.
Proof.
  split; [| split; [| split; [| split; [| split; [| reflexivity]]]]].
  5: { apply (bool_decide_unpack _). vm_compute. reflexivity. }
  - intros key symbol Hin. unfold server_js.symbols in Hin.
    repeat (apply elem_of_cons in Hin as [[= -> ->] | Hin];
            [split; reflexivity |]).
    inversion Hin.
  - intros key symbol Hin. unfold part_000.symbols in Hin.
    repeat (apply elem_of_cons in Hin as [[= -> ->] | Hin];
            [split; reflexivity |]).
    inversion Hin.
  - intros commodity Hk _. unfold server_js.getMockData.
    apply fallback_lookup_others. unfold server_js.mockPrices.
    apply not_elem_of_list_to_map_1. exact Hk.
  - intros commodity Hk _. unfold part_000.getMockData.
    apply fallback_lookup_others. unfold part_000.mockPrices.
    apply not_elem_of_list_to_map_1. exact Hk.
Qed.

Lemma fallback_covers_registry_witness :
  ToBoolean (price (server_js.getMockData "ho")) = true /\
  part_000.getMockData "ho" = mkQuote (lit 0) (lit 0) (lit 0) (lit 0).
Proof.
  split.
  - refine (proj1 (proj1 fallback_covers_registry "ho" "HO=F" _)).
    apply (bool_decide_unpack _). vm_compute. reflexivity.
  - apply (proj1 (proj2 (proj2 (proj2 fallback_covers_registry))));
      apply (bool_decide_unpack _); vm_compute; reflexivity.
Defined.

Lemma fetchQuotes_lookup_witness :
  let net : Upstream := fun symbol =>
    if bool_decide (symbol = "RB=F") then Yahoo.Rejects "timeout"
    else constant_upstream (lit 70) (lit 69) [] symbol in
  let data := fetchQuotes server_js.getMockData server_js.symbols net in
  data !! "rbob"
  = Some (fetched_or_fallback server_js.getMockData net "rbob" "RB=F") /\
  data !! "gold" = None.
Proof.
  cbv zeta. split.
  - refine (proj1 (fetchQuotes_lookup server_js.getMockData _ server_js.symbols
                     server_js_symbols_NoDup) "rbob" "RB=F" _).
    apply (bool_decide_unpack _). vm_compute. reflexivity.
  - refine (proj2 (fetchQuotes_lookup server_js.getMockData _ server_js.symbols
                     server_js_symbols_NoDup) "gold" _).
    apply (bool_decide_unpack _). vm_compute. reflexivity.
Defined.
